(** * WomenMatters dashboard: cleaning, filtering and aggregation

    A shallow embedding of the data pipeline of
    [women_violence_streamlit.py]: [clean_data], the sidebar widgets
    and their defaults, the filter ([filtered]), the session slot
    holding [df_filtered] over successive runs, and the chart section
    with its aggregations and its word cloud.  Data frames are lists of
    rows; the pandas operations the script calls are written out as
    list functions; the date parser, the float summation of pandas'
    group mean and the tokenizer of the word cloud are parameters. *)

From Stdlib Require Import List ZArith Bool String Ascii Lia PeanoNat.
From Stdlib Require Import Sorted Permutation.
From Stdlib Require Import PrimFloat Uint63 Floats.
Import ListNotations.

Set Implicit Arguments.

(** ** The pandas operations used by the script *)

Module Pandas.

(** A [float64] cell: NaN is pandas' marker of a missing number. *)
Definition isna (v : float) : bool := PrimFloat.is_nan v.
Definition notna (v : float) : bool := negb (isna v).

(** A cell of an object column: [None] is the missing entry (NaN). *)
Definition dropna_col {A : Type} (col : list (option A)) : list A :=
  flat_map (fun c => match c with Some a => [a] | None => [] end) col.

Section Sorting.
Variable A : Type.
Variable leb : A -> A -> bool.

Fixpoint insert_sorted (x : A) (l : list A) : list A :=
  match l with
  | [] => [x]
  | y :: t => if leb x y then x :: y :: t else y :: insert_sorted x t
  end.

(** Stable insertion sort. *)
Definition sort_values (l : list A) : list A :=
  fold_right insert_sorted [] l.
End Sorting.

(** [Series.median()] (skipna): NaN entries are left out, the rest is
    sorted; the middle entry for an odd count, the mean of the two
    middle entries for an even count, NaN when nothing is left. *)
Definition median (col : list float) : float :=
  let xs := sort_values PrimFloat.leb (filter notna col) in
  let n := List.length xs in
  if Nat.eqb n 0 then nan
  else if Nat.odd n then nth (n / 2) xs nan
  else ((nth (n / 2 - 1) xs nan + nth (n / 2) xs nan) / 2)%float.

(** [Series.fillna(value)] on one cell. *)
Definition fillna (value v : float) : float :=
  if isna v then value else v.

(** [Series.isin(values)] on one cell of an object column: a missing
    cell is in no list of labels. *)
Definition isin (c : option string) (values : list string) : bool :=
  match c with
  | Some s => existsb (String.eqb s) values
  | None => false
  end.

Section Keys.
Variable K : Type.
Variable eqb : K -> K -> bool.
Variable leb : K -> K -> bool.

(** [unique()]: the distinct entries in order of first appearance. *)
Fixpoint unique (l : list K) : list K :=
  match l with
  | [] => []
  | x :: t => x :: filter (fun y => negb (eqb x y)) (unique t)
  end.

Definition key_is (k : K) (c : option K) : bool :=
  match c with Some k' => eqb k k' | None => false end.

(** [df.groupby(key)] with the defaults [sort=True, dropna=True]:
    one group per distinct key that is not missing, groups in
    ascending key order, each group holding its rows in frame
    order. *)
Definition groupby {R : Type} (key : R -> option K) (df : list R)
  : list (K * list R) :=
  map (fun k => (k, filter (fun r => key_is k (key r)) df))
      (sort_values leb (unique (dropna_col (map key df)))).

(** The hash-table count behind [value_counts]: one counter per
    distinct label, in order of first appearance. *)
Fixpoint count_up (k : K) (tbl : list (K * nat)) : list (K * nat) :=
  match tbl with
  | [] => [(k, 1)]
  | (k', n) :: t =>
      if eqb k k' then (k', S n) :: t else (k', n) :: count_up k t
  end.

(** [Series.value_counts()] with the defaults [sort=True,
    dropna=True]: missing cells are not counted, rows come out by
    descending count. *)
Definition value_counts (col : list (option K)) : list (K * nat) :=
  sort_values (fun a b => Nat.leb (snd b) (snd a))
    (fold_left (fun tbl k => count_up k tbl) (dropna_col col) []).
End Keys.

Definition pair_eqb (a b : string * string) : bool :=
  String.eqb (fst a) (fst b) && String.eqb (snd a) (snd b).

(** Python's tuple order: by the first component, then the second. *)
Definition pair_leb (a b : string * string) : bool :=
  if String.eqb (fst a) (fst b) then String.leb (snd a) (snd b)
  else String.leb (fst a) (fst b).

Definition both {A B : Type} (a : option A) (b : option B)
  : option (A * B) :=
  match a, b with Some x, Some y => Some (x, y) | _, _ => None end.

(** The Python exceptions the script can stop with. *)
Inductive Exception : Type :=
| ValueError (msg : string)
| StreamlitAPIException.

Inductive Result (A : Type) : Type :=
| Ok (a : A)
| Raise (e : Exception).
Arguments Raise {A} e.

(** The matrix [DataFrame.pivot] returns: column labels, then one
    line per index label; a cell with no entry is NaN. *)
Record Matrix : Type := mkMatrix {
  matrix_columns : list string;
  matrix_rows : list (string * list float)
}.

Fixpoint has_duplicates (l : list (string * string)) : bool :=
  match l with
  | [] => false
  | x :: t => existsb (pair_eqb x) t || has_duplicates t
  end.

Definition cell_at (tbl : list (string * string * float))
    (i c : string) : float :=
  match find (fun e => pair_eqb (i, c) (fst e)) tbl with
  | Some e => snd e
  | None => nan
  end.

(** [df.pivot(index, columns, values)] on a table of
    (index, column, value) lines: raises when an (index, column) pair
    occurs twice. *)
Definition pivot (tbl : list (string * string * float)) : Result Matrix :=
  if has_duplicates (map fst tbl)
  then Raise (ValueError "Index contains duplicate entries, cannot reshape")
  else
    let index := sort_values String.leb
                   (unique String.eqb (map (fun e => fst (fst e)) tbl)) in
    let columns := sort_values String.leb
                     (unique String.eqb (map (fun e => snd (fst e)) tbl)) in
    Ok (mkMatrix columns
          (map (fun i => (i, map (cell_at tbl i) columns)) index)).

End Pandas.

(** ** Data model *)

(** [pandas.Timestamp], by the calendar fields the script can read. *)
Record Timestamp : Type := mkTimestamp {
  year : Z;
  month : Z;
  day : Z;
  nanos_of_day : Z
}.

(** A cell of the [Survey Year] column.  The CSV gives text or a missing
    entry; [pd.to_datetime] turns the column into timestamps and NaT. *)
Inductive DateCell : Type :=
| DateText (s : string)
| DateNaN
| Stamp (t : Timestamp)
| NaT.

(** One row of the frame, by the columns the script names. *)
Record Row : Type := mkRow {
  Country : option string;
  Gender : option string;
  Survey_Year : DateCell;
  Demographics_Question : option string;
  Demographics_Response : option string;
  Question : option string;
  Value : float
}.

Definition DataFrame : Type := list Row.

Definition set_Value (r : Row) (v : float) : Row :=
  mkRow (Country r) (Gender r) (Survey_Year r) (Demographics_Question r)
        (Demographics_Response r) (Question r) v.

Definition set_Survey_Year (r : Row) (c : DateCell) : Row :=
  mkRow (Country r) (Gender r) c (Demographics_Question r)
        (Demographics_Response r) (Question r) (Value r).

Definition isna_date (c : DateCell) : bool :=
  match c with
  | DateText _ | Stamp _ => false
  | DateNaN | NaT => true
  end.

(** ** Data cleaning *)

Section Cleaning.

(** The date parser of [pd.to_datetime] on one text entry; [None] is
    a parse failure.  The whole column is an argument because pandas
    may settle the format on the column's first entries. *)
Variable parse_date : list DateCell -> string -> option Timestamp.

(** [pd.to_datetime(col, errors='coerce')] on one cell of [col]. *)
Definition to_datetime_coerce (col : list DateCell) (c : DateCell)
  : DateCell :=
  match c with
  | DateText s =>
      match parse_date col s with Some t => Stamp t | None => NaT end
  | DateNaN => NaT
  | Stamp t => Stamp t
  | NaT => NaT
  end.

(** [df_clean['Value'] = df_clean['Value'].fillna(median_value)] *)
Definition fillna_Value (median_value : float) (df : DataFrame)
  : DataFrame :=
  map (fun r => set_Value r (Pandas.fillna median_value (Value r))) df.

(** [df_clean['Survey Year'] = pd.to_datetime(df_clean['Survey Year'],
    errors='coerce')] *)
Definition to_datetime_Survey_Year (df : DataFrame) : DataFrame :=
  let col := map Survey_Year df in
  map (fun r => set_Survey_Year r (to_datetime_coerce col (Survey_Year r)))
      df.

(** [df_clean.dropna(subset=['Value', 'Survey Year'])] *)
Definition dropna_Value_Survey_Year (df : DataFrame) : DataFrame :=
  filter (fun r => Pandas.notna (Value r) && negb (isna_date (Survey_Year r)))
         df.

(** [clean_data].  A frame always has its [Value] and [Survey Year]
    columns here, so the two [if ... in df_clean.columns] tests hold;
    [df.copy()] is the frame itself, nothing being updated in place. *)
Definition clean_data (df : DataFrame) : DataFrame :=
  let df_clean := df in
  let median_value := Pandas.median (map Value df_clean) in
  let df_clean := fillna_Value median_value df_clean in
  let df_clean := to_datetime_Survey_Year df_clean in
  let df_clean := dropna_Value_Survey_Year df_clean in
  df_clean.

(** The row [r] of [df] after the two column assignments of
    [clean_data], before rows are dropped. *)
Definition assigned (df : DataFrame) (r : Row) : Row :=
  set_Survey_Year
    (set_Value r (Pandas.fillna (Pandas.median (map Value df)) (Value r)))
    (to_datetime_coerce (map Survey_Year df) (Survey_Year r)).

(** Whether the row [r] of [df] is kept by the final [dropna]. *)
Definition survives (df : DataFrame) (r : Row) : bool :=
  Pandas.notna (Value (assigned df r))
  && negb (isna_date (Survey_Year (assigned df r))).

End Cleaning.


(** ** Sidebar filters *)

(** The widget values the filter reads: the slider's pair of years and
    the three multiselect lists. *)
Record FilterParams : Type := mkFilterParams {
  year_range : Z * Z;
  selected_countries : list string;
  selected_genders : list string;
  selected_demographics : list string
}.

(** [col.dt.year] on one cell: a timestamp gives its year, NaT gives
    no year (NaN).  The script applies the accessor to the frame
    [clean_data] returns only, whose cells are all timestamps; a text
    cell, on which pandas has no [.dt], is given no year either. *)
Definition dt_year (c : DateCell) : option Z :=
  match c with
  | Stamp t => Some (year t)
  | DateText _ | DateNaN | NaT => None
  end.

(** [y >= bound] and [y <= bound] on a year cell: a comparison with NaN
    is false. *)
Definition year_ge (y : option Z) (bound : Z) : bool :=
  match y with Some v => (bound <=? v)%Z | None => false end.

Definition year_le (y : option Z) (bound : Z) : bool :=
  match y with Some v => (v <=? bound)%Z | None => false end.

(** The boolean mask of the filter, on one row. *)
Definition mask (p : FilterParams) (r : Row) : bool :=
  year_ge (dt_year (Survey_Year r)) (fst (year_range p))
  && year_le (dt_year (Survey_Year r)) (snd (year_range p))
  && Pandas.isin (Country r) (selected_countries p)
  && Pandas.isin (Gender r) (selected_genders p)
  && Pandas.isin (Demographics_Question r) (selected_demographics p).

(** [filtered = df_clean[mask]] *)
Definition filtered (df_clean : DataFrame) (p : FilterParams) : DataFrame :=
  filter (mask p) df_clean.

(** The slot [st.session_state['df_filtered']]: [None] before the first
    run of the script. *)
Definition SessionState : Type := option DataFrame.

(** The frame the charts read in one run of the script: the slot is
    initialised to a copy of [df_clean] when absent, overwritten by the
    filter when the button was pressed, and read back. *)
Definition df_filtered (session_state : SessionState) (submit_button : bool)
    (df_clean : DataFrame) (p : FilterParams) : DataFrame :=
  let slot := match session_state with
              | None => df_clean
              | Some d => d
              end in
  if submit_button then filtered df_clean p else slot.

(** The slot after that run. *)
Definition session_after (session_state : SessionState)
    (submit_button : bool) (df_clean : DataFrame) (p : FilterParams)
  : SessionState :=
  Some (df_filtered session_state submit_button df_clean p).

(** ** Aggregations, one per chart *)

Section Aggregations.

(** The mean pandas takes of the values of one group ([.mean()] on a
    grouped column).  Which float it returns rests on the order and
    the compensation of pandas' own summation, so the function is a
    parameter: the tables below are stated for whatever it returns. *)
Variable group_mean : list float -> float.

(** [.mean()] of [Value] in each group, after [reset_index()]. *)
Definition mean_Value {K : Type} (groups : list (K * list Row))
  : list (K * float) :=
  map (fun g => (fst g, group_mean (map Value (snd g)))) groups.

(** [.size()] of each group, after [reset_index(name='Count')]. *)
Definition size_of {K : Type} (groups : list (K * list Row))
  : list (K * nat) :=
  map (fun g => (fst g, List.length (snd g))) groups.

Definition groupby_label (key : Row -> option string) (df : DataFrame)
  : list (string * list Row) :=
  Pandas.groupby String.eqb String.leb key df.

Definition groupby_pair (key1 key2 : Row -> option string) (df : DataFrame)
  : list (string * string * list Row) :=
  Pandas.groupby Pandas.pair_eqb Pandas.pair_leb
    (fun r => Pandas.both (key1 r) (key2 r)) df.

(** Chart 2: [df_filtered['Gender'].value_counts().reset_index()] *)
Definition gender_counts (df : DataFrame) : list (string * nat) :=
  Pandas.value_counts String.eqb (map Gender df).

(** Chart 3: [" ".join(str(q) for q in df_filtered['Question'].dropna())] *)
Definition text (df : DataFrame) : string :=
  String.concat " " (Pandas.dropna_col (map Question df)).

(** Chart 4 *)
Definition df_question_avg (df : DataFrame) : list (string * float) :=
  mean_Value (groupby_label Question df).

(** Chart 5: grouped by [df_filtered['Survey Year'].dt.year] *)
Definition df_yearly_avg (df : DataFrame) : list (Z * float) :=
  mean_Value
    (Pandas.groupby Z.eqb Z.leb (fun r => dt_year (Survey_Year r)) df).

(** Chart 6 *)
Definition df_sunburst_data (df : DataFrame)
  : list (string * string * float) :=
  mean_Value (groupby_pair Demographics_Question Demographics_Response df).

(** Chart 7 *)
Definition df_heatmap_data (df : DataFrame)
  : list (string * string * float) :=
  mean_Value (groupby_pair Demographics_Question Question df).

Definition heatmap_data (df : DataFrame) : Pandas.Result Pandas.Matrix :=
  Pandas.pivot (df_heatmap_data df).

(** Chart 9 *)
Definition df_grouped_gender (df : DataFrame)
  : list (string * string * float) :=
  mean_Value (groupby_pair Demographics_Question Gender df).

(** Chart 10 *)
Definition df_stacked_bar_data (df : DataFrame)
  : list (string * string * nat) :=
  size_of (groupby_pair Demographics_Question Demographics_Response df).

(** ** The word cloud and the chart section *)

(** [WordCloud.process_text]: the words of a text with their counts,
    stop words left out.  The tokenizer is the library's and is a
    parameter. *)
Variable process_text : string -> list (string * nat).

(** [WordCloud(...).generate(text)]: the word frequencies to lay out;
    the library raises when the text holds no word. *)
Definition generate (text : string) : Pandas.Result (list (string * nat)) :=
  match process_text text with
  | [] =>
      Pandas.Raise
        (Pandas.ValueError
           "We need at least 1 word to plot a word cloud, got 0.")
  | w :: ws => Pandas.Ok (w :: ws)
  end.

(** What the chart section computes from [df_filtered], chart by
    chart; charts 1 and 8 plot the frame as it is. *)
Record Charts : Type := mkCharts {
  chart_gender_counts : list (string * nat);
  chart_wordcloud : list (string * nat);
  chart_question_avg : list (string * float);
  chart_yearly_avg : list (Z * float);
  chart_sunburst_data : list (string * string * float);
  chart_heatmap_data : Pandas.Matrix;
  chart_grouped_gender : list (string * string * float);
  chart_stacked_bar_data : list (string * string * nat)
}.

(** The chart section, in the order of the script: a step that raises
    ends the run, and the charts after it are not computed. *)
Definition charts (df_filtered : DataFrame) : Pandas.Result Charts :=
  let gender_counts := gender_counts df_filtered in
  match generate (text df_filtered) with
  | Pandas.Raise e => Pandas.Raise e
  | Pandas.Ok wordcloud =>
      let df_question_avg := df_question_avg df_filtered in
      let df_yearly_avg := df_yearly_avg df_filtered in
      let df_sunburst_data := df_sunburst_data df_filtered in
      match heatmap_data df_filtered with
      | Pandas.Raise e => Pandas.Raise e
      | Pandas.Ok heatmap_data =>
          Pandas.Ok
            (mkCharts gender_counts wordcloud df_question_avg df_yearly_avg
               df_sunburst_data heatmap_data (df_grouped_gender df_filtered)
               (df_stacked_bar_data df_filtered))
      end
  end.

End Aggregations.

(** ** A date parser for the examples

    Text of the shape MM/DD/YYYY with the month in 1..12, the day in
    1..28 and the year in 1678..2261, read as midnight of that day;
    every other text is a parse failure.  pandas reads these dates the
    same way and accepts many more shapes. *)

Definition digit_of (c : ascii) : option Z :=
  let n := Z.of_N (N_of_ascii c) in
  if ((48 <=? n) && (n <=? 57))%Z then Some (n - 48)%Z else None.

Definition two_digits (a b : ascii) : option Z :=
  match digit_of a, digit_of b with
  | Some x, Some y => Some (10 * x + y)%Z
  | _, _ => None
  end.

Definition in_range (lo v hi : Z) : bool := ((lo <=? v) && (v <=? hi))%Z.

Definition parse_mdy (_ : list DateCell) (s : string) : option Timestamp :=
  match list_ascii_of_string s with
  | [m1; m2; s1; d1; d2; s2; y1; y2; y3; y4] =>
      match two_digits m1 m2, two_digits d1 d2,
            two_digits y1 y2, two_digits y3 y4 with
      | Some m, Some d, Some c, Some y =>
          if Ascii.eqb s1 "/" && Ascii.eqb s2 "/" && in_range 1 m 12
             && in_range 1 d 28 && in_range 1678 (100 * c + y) 2261
          then Some (mkTimestamp (100 * c + y) m d 0)
          else None
      | _, _, _, _ => None
      end
  | _ => None
  end.

(** ** A group mean and a tokenizer for the examples *)

(** A group mean after pandas' own: the compensated sum, from first
    to last, of the entries that are not NaN, over their count, and
    NaN for a group without such an entry.  Each step carries the
    running sum and the rounding error of the step before. *)
Definition compensated_step (acc : float * float) (val : float)
  : float * float :=
  let sumx := fst acc in
  let compensation := snd acc in
  let y := (val - compensation)%float in
  let t := (sumx + y)%float in
  let c := (t - sumx - y)%float in
  (t, if PrimFloat.is_nan c then 0%float else c).

Definition compensated_mean (col : list float) : float :=
  let xs := filter Pandas.notna col in
  match xs with
  | [] => nan
  | _ :: _ =>
      (fst (fold_left compensated_step xs (0, 0))
       / PrimFloat.of_uint63 (Uint63.of_Z (Z.of_nat (List.length xs))))%float
  end.

(** The words of a text, taken as its runs of characters between
    spaces. *)
Fixpoint words_from (word text : string) : list string :=
  match text with
  | EmptyString =>
      match word with EmptyString => [] | String _ _ => [word] end
  | String c rest =>
      if Ascii.eqb c " "
      then match word with
           | EmptyString => words_from EmptyString rest
           | String _ _ => word :: words_from EmptyString rest
           end
      else words_from (String.append word (String c EmptyString)) rest
  end.

(** A tokenizer: every word between spaces with its number of
    occurrences.  The library's own tokenizer also lowers the case and
    leaves out stop words; both find no word in the empty text. *)
Definition count_words (text : string) : list (string * nat) :=
  Pandas.value_counts String.eqb (map Some (words_from EmptyString text)).

(** A row of the survey file, as read from the CSV. *)
Definition csv_row (country gender date dq dr q : string) (v : float) : Row :=
  mkRow (Some country) (Some gender) (DateText date) (Some dq) (Some dr)
        (Some q) v.

(** The three-row frame of the median example: values 10, missing, 30. *)
Definition three_rows : DataFrame :=
  [ csv_row "Afghanistan" "F" "01/01/2015" "Age" "15-24"
      "... if she burns the food" 10;
    csv_row "Afghanistan" "M" "01/01/2015" "Age" "25-34"
      "... if she burns the food" nan;
    csv_row "Albania" "F" "01/01/2017" "Education" "Higher"
      "... if she argues with him" 30 ].

(** A row whose date does not parse, all its other fields in order. *)
Definition not_a_date_row : Row :=
  csv_row "Albania" "M" "not-a-date" "Age" "25-34"
    "... if she burns the food" 30.

Definition invalid_date_rows : DataFrame :=
  [ csv_row "Afghanistan" "F" "01/01/2015" "Age" "15-24"
      "... if she burns the food" 10;
    not_a_date_row ].

(** A frame whose [Value] column is entirely missing. *)
Definition all_missing_rows : DataFrame :=
  [ csv_row "Afghanistan" "F" "01/01/2015" "Age" "15-24"
      "... if she burns the food" nan;
    csv_row "Albania" "M" "01/01/2017" "Age" "25-34"
      "... if she burns the food" nan ].

(** A frame with one row whose [Gender] cell is empty in the CSV. *)
Definition missing_gender_rows : DataFrame :=
  [ csv_row "Afghanistan" "F" "01/01/2015" "Age" "15-24"
      "... if she burns the food" 10;
    mkRow (Some "Albania"%string) None (DateText "01/01/2017"%string) (Some "Age"%string)
      (Some "25-34"%string) (Some "... if she burns the food"%string) 30 ].

(** The two cleaned rows of the filter example: country A, gender M,
    year 2010, and country B, gender F, year 2015. *)
Definition row_A_M_2010 : Row :=
  mkRow (Some "A"%string) (Some "M"%string) (Stamp (mkTimestamp 2010 1 1 0)) (Some "Age"%string)
        (Some "15-24"%string) (Some "... if she burns the food"%string) 10.

Definition row_B_F_2015 : Row :=
  mkRow (Some "B"%string) (Some "F"%string) (Stamp (mkTimestamp 2015 1 1 0)) (Some "Age"%string)
        (Some "25-34"%string) (Some "... if she burns the food"%string) 30.

Definition two_cleaned_rows : DataFrame := [row_A_M_2010; row_B_F_2015].

Definition select_A_M : FilterParams :=
  mkFilterParams (2000, 2020)%Z ["A"%string] ["M"%string] ["Age"%string].

(** ** Sidebar widgets *)

(** [df_clean['Survey Year'].dt.year] *)
Definition year_column (df : DataFrame) : list (option Z) :=
  map (fun r => dt_year (Survey_Year r)) df.

(** [col.min()] and [col.max()] (skipna) on a year column: NaN, here
    [None], when the column holds no year. *)
Definition series_min (col : list (option Z)) : option Z :=
  match Pandas.dropna_col col with
  | [] => None
  | y :: t => Some (fold_left Z.min t y)
  end.

Definition series_max (col : list (option Z)) : option Z :=
  match Pandas.dropna_col col with
  | [] => None
  | y :: t => Some (fold_left Z.max t y)
  end.

(** Python's [int(x)] on the result of [min()] or [max()]: NaN has no
    integer value. *)
Definition int_of (x : option Z) : Pandas.Result Z :=
  match x with
  | Some y => Pandas.Ok y
  | None =>
      Pandas.Raise (Pandas.ValueError "cannot convert float NaN to integer")
  end.

Definition year_min (df_clean : DataFrame) : Pandas.Result Z :=
  int_of (series_min (year_column df_clean)).

Definition year_max (df_clean : DataFrame) : Pandas.Result Z :=
  int_of (series_max (year_column df_clean)).

(** [sorted(col.dropna().unique())] on a column of labels. *)
Definition sorted_unique (col : list (option string)) : list string :=
  Pandas.sort_values String.leb
    (Pandas.unique String.eqb (Pandas.dropna_col col)).

(** The options of the three multiselects. *)
Definition countries (df_clean : DataFrame) : list string :=
  sorted_unique (map Country df_clean).

Definition genders (df_clean : DataFrame) : list string :=
  sorted_unique (map Gender df_clean).

Definition demographics_questions (df_clean : DataFrame) : list string :=
  sorted_unique (map Demographics_Question df_clean).

(** [st.sidebar.slider(..., min_value, max_value, value=(min_value,
    max_value), step=1)]: Streamlit refuses a slider whose lower end
    is not below its upper end; otherwise the slider stands at its
    default, the whole range, until the user moves it. *)
Definition slider_default (min_value max_value : Z) : Pandas.Result (Z * Z) :=
  if (max_value <=? min_value)%Z
  then Pandas.Raise Pandas.StreamlitAPIException
  else Pandas.Ok (min_value, max_value).

(** The default values the script hands to its four widgets, which
    are the widget values until the user changes them: the slider at
    [(year_min, year_max)], the countries at [countries[:5]], the two
    other multiselects at all their options.  The run stops where
    [year_min], [year_max] or the slider raises. *)
Definition default_widgets (df_clean : DataFrame)
  : Pandas.Result FilterParams :=
  match year_min df_clean with
  | Pandas.Raise e => Pandas.Raise e
  | Pandas.Ok lo =>
      match year_max df_clean with
      | Pandas.Raise e => Pandas.Raise e
      | Pandas.Ok hi =>
          match slider_default lo hi with
          | Pandas.Raise e => Pandas.Raise e
          | Pandas.Ok year_range =>
              Pandas.Ok (mkFilterParams year_range
                           (firstn 5 (countries df_clean))
                           (genders df_clean)
                           (demographics_questions df_clean))
          end
      end
  end.

(** ** Successive runs of the script *)

(** One run of the script down to the charts: the sidebar, which
    raises on a frame without a year and on a frame with one year
    only, then the slot logic.  The result is the slot after the run
    and the frame the charts read. *)
Definition run (df_clean : DataFrame) (session_state : SessionState)
    (submit_button : bool) (widgets : FilterParams)
  : Pandas.Result (SessionState * DataFrame) :=
  match default_widgets df_clean with
  | Pandas.Raise e => Pandas.Raise e
  | Pandas.Ok _ =>
      Pandas.Ok (session_after session_state submit_button df_clean widgets,
                 df_filtered session_state submit_button df_clean widgets)
  end.

(** The slot after a series of runs on the same cleaned frame, each run
    with its button state and its widget values; a run that raises
    leaves the slot as it found it. *)
Definition reruns (df_clean : DataFrame) (session_state : SessionState)
    (runs : list (bool * FilterParams)) : SessionState :=
  fold_left (fun st r =>
               match run df_clean st (fst r) (snd r) with
               | Pandas.Ok out => fst out
               | Pandas.Raise _ => st
               end)
            runs session_state.

(** The widget values of the last run in which the button was
    pressed. *)
Definition last_press (runs : list (bool * FilterParams))
  : option FilterParams :=
  fold_left (fun (acc : option FilterParams) (run : bool * FilterParams) =>
               if fst run then Some (snd run) else acc)
            runs None.

(** Whether a cell of a label column holds a label. *)
Definition present {A : Type} (c : option A) : bool :=
  match c with Some _ => true | None => false end.

(** [q] selects at least what [p] selects: a year range that contains
    that of [p], and selections that contain those of [p]. *)
Definition widens (p q : FilterParams) : Prop :=
  (fst (year_range q) <= fst (year_range p))%Z
  /\ (snd (year_range p) <= snd (year_range q))%Z
  /\ incl (selected_countries p) (selected_countries q)
  /\ incl (selected_genders p) (selected_genders q)
  /\ incl (selected_demographics p) (selected_demographics q).

(** The number of entries of [l] equal to [k]. *)
Definition occurrences {K : Type} (eqb : K -> K -> bool) (k : K)
    (l : list K) : nat :=
  List.length (filter (eqb k) l).

(** [opts] is the option list of the label column [col]: ascending
    with no label twice, and holding exactly the labels of [col]. *)
Definition options_of (col : list (option string)) (opts : list string)
  : Prop :=
  Sorted (fun a b => String.ltb a b = true) opts
  /\ NoDup opts
  /\ forall s, In s opts <-> In (Some s) col.

(** Python's order on pairs of labels, strict: by the first label,
    then the second. *)
Definition pair_lt (a b : string * string) : Prop :=
  String.ltb (fst a) (fst b) = true
  \/ (fst a = fst b /\ String.ltb (snd a) (snd b) = true).

(** [keys] is the key column of a grouping of [df] by the two label
    columns [key1] and [key2]: ascending with no pair twice, and
    holding exactly the pairs of the rows in which both labels are
    present. *)
Definition pair_keys_of (key1 key2 : Row -> option string) (df : DataFrame)
    (keys : list (string * string)) : Prop :=
  Sorted pair_lt keys
  /\ NoDup keys
  /\ forall q a, In (q, a) keys <->
                 exists r, In r df /\ key1 r = Some q /\ key2 r = Some a.

(** The counters [tbl] tally the labels [done]: one counter per
    distinct label of [done], holding the number of its occurrences. *)
Definition tallied {K : Type} (eqb : K -> K -> bool) (tbl : list (K * nat))
    (done : list K) : Prop :=
  NoDup (map fst tbl)
  /\ (forall k n, In (k, n) tbl -> n = occurrences eqb k done /\ 0 < n)
  /\ (forall k, In k done -> In k (map fst tbl)).

(** ** The median, in the words of the specification *)

(** The middle of a list in ascending order: the middle entry for an
    odd length, the mean of the two middle entries for an even length,
    NaN for the empty list. *)
Definition middle (xs : list float) : float :=
  match xs with
  | [] => nan
  | _ :: _ =>
      if Nat.odd (List.length xs) then nth (List.length xs / 2) xs nan
      else ((nth (List.length xs / 2 - 1) xs nan
             + nth (List.length xs / 2) xs nan) / 2)%float
  end.

(** [m] is the median of the entries of [values] that are not missing:
    the middle of those entries put in ascending order. *)
Definition median_of (values : list float) (m : float) : Prop :=
  exists xs,
    Permutation xs (filter Pandas.notna values)
    /\ StronglySorted (fun a b => PrimFloat.leb a b = true) xs
    /\ m = middle xs.

(** The place of a float that is not NaN in the order of the floats:
    its class (minus infinity, negative, zero, positive, infinity),
    then exponent and mantissa, both negated for a negative float. *)
Definition float_key (f : spec_float) : Z * Z * Z :=
  match f with
  | S754_zero _ | S754_nan => (0, 0, 0)%Z
  | S754_infinity true => (-2, 0, 0)%Z
  | S754_infinity false => (2, 0, 0)%Z
  | S754_finite true m e => (-1, - e, Z.neg m)%Z
  | S754_finite false m e => (1, e, Z.pos m)%Z
  end.

Definition key_le (a b : Z * Z * Z) : Prop :=
  (fst (fst a) < fst (fst b)
   \/ (fst (fst a) = fst (fst b)
       /\ (snd (fst a) < snd (fst b)
           \/ (snd (fst a) = snd (fst b) /\ snd a <= snd b))))%Z.

(** ** Subsequences *)

Inductive subseq {A : Type} : list A -> list A -> Prop :=
| subseq_nil : subseq [] []
| subseq_drop : forall x l1 l2, subseq l1 l2 -> subseq l1 (x :: l2)
| subseq_keep : forall x l1 l2, subseq l1 l2 -> subseq (x :: l1) (x :: l2).

(** The columns [clean_data] never assigns. *)
Definition other_fields (r : Row)
  : option string * option string * option string * option string
    * option string :=
  (Country r, Gender r, Demographics_Question r, Demographics_Response r,
   Question r).

(** The invariants of a cleaned frame: no missing [Value], every
    [Survey Year] a timestamp. *)
Definition cleaned (df : DataFrame) : Prop :=
  forall r, In r df ->
    Pandas.isna (Value r) = false /\ exists t, Survey_Year r = Stamp t.

(** * Properties *)

(** ** Lists *)

Lemma filter_map_comm (A B : Type) (f : A -> B) (p : B -> bool) (l : list A) :
  filter p (map f l) = map f (filter (fun a => p (f a)) l).
Proof.
  induction l as [| a l IH]; simpl; [reflexivity|].
  destruct (p (f a)); simpl; now rewrite IH.
Qed.

Lemma filter_all (A : Type) (p : A -> bool) (l : list A) :
  (forall a, In a l -> p a = true) -> filter p l = l.
Proof.
  induction l as [| a l IH]; simpl; intros H; [reflexivity|].
  rewrite (H a (or_introl eq_refl)). f_equal. apply IH. auto.
Qed.

Lemma filter_none (A : Type) (p : A -> bool) (l : list A) :
  (forall a, In a l -> p a = false) -> filter p l = [].
Proof.
  induction l as [| a l IH]; simpl; intros H; [reflexivity|].
  rewrite (H a (or_introl eq_refl)). apply IH. auto.
Qed.

Lemma map_id_on (A : Type) (f : A -> A) (l : list A) :
  (forall a, In a l -> f a = a) -> map f l = l.
Proof.
  induction l as [| a l IH]; simpl; intros H; [reflexivity|].
  rewrite (H a (or_introl eq_refl)). f_equal. apply IH. auto.
Qed.

Lemma subseq_refl (A : Type) (l : list A) : subseq l l.
Proof. induction l; constructor; assumption. Qed.

Lemma subseq_filter (A : Type) (p : A -> bool) (l : list A) :
  subseq (filter p l) l.
Proof.
  induction l as [| a l IH]; simpl; [constructor|].
  destruct (p a); constructor; exact IH.
Qed.

Lemma subseq_map (A B : Type) (f : A -> B) (l1 l2 : list A) :
  subseq l1 l2 -> subseq (map f l1) (map f l2).
Proof. induction 1; simpl; constructor; assumption. Qed.

Lemma subseq_In (A : Type) (l1 l2 : list A) :
  subseq l1 l2 -> forall a, In a l1 -> In a l2.
Proof.
  induction 1; simpl; intros a Ha; auto.
  destruct Ha; auto.
Qed.

Lemma subseq_length (A : Type) (l1 l2 : list A) :
  subseq l1 l2 -> List.length l1 <= List.length l2.
Proof. induction 1; simpl; lia. Qed.

Lemma Forall2_map_right (A B : Type) (R : A -> B -> Prop) (f : A -> B)
    (l : list A) :
  (forall a, In a l -> R a (f a)) -> Forall2 R l (map f l).
Proof.
  induction l as [| a l IH]; simpl; intros H; constructor; auto.
Qed.

(** ** Cleaning *)

Section CleaningFacts.

Variable parse_date : list DateCell -> string -> option Timestamp.

Lemma Survey_Year_fillna_Value (m : float) (df : DataFrame) :
  map Survey_Year (fillna_Value m df) = map Survey_Year df.
Proof. unfold fillna_Value. rewrite map_map. reflexivity. Qed.

(** [clean_data] row by row: the rows that survive, each with its two
    assigned columns. *)
Lemma clean_data_assigned (df : DataFrame) :
  clean_data parse_date df
  = map (assigned parse_date df) (filter (survives parse_date df) df).
Proof.
  unfold clean_data, dropna_Value_Survey_Year, to_datetime_Survey_Year.
  rewrite Survey_Year_fillna_Value.
  unfold fillna_Value. rewrite map_map.
  rewrite filter_map_comm. reflexivity.
Qed.

Lemma to_datetime_coerce_cases (col : list DateCell) (c : DateCell) :
  (exists t, to_datetime_coerce parse_date col c = Stamp t)
  \/ to_datetime_coerce parse_date col c = NaT.
Proof.
  destruct c as [s| |t|]; simpl; eauto.
  destruct (parse_date col s); eauto.
Qed.

Lemma survives_spec (df : DataFrame) (r : Row) :
  survives parse_date df r = true <->
  Pandas.isna (Pandas.fillna (Pandas.median (map Value df)) (Value r)) = false
  /\ exists t,
       to_datetime_coerce parse_date (map Survey_Year df) (Survey_Year r)
       = Stamp t.
Proof.
  unfold survives, assigned, Pandas.notna. simpl.
  rewrite andb_true_iff, !negb_true_iff.
  destruct (to_datetime_coerce_cases (map Survey_Year df) (Survey_Year r))
    as [[t Ht] | Ht]; rewrite Ht; simpl; split; intros [H1 H2]; split; eauto;
    try discriminate.
  destruct H2; discriminate.
Qed.

Lemma clean_data_In (df : DataFrame) (c : Row) :
  In c (clean_data parse_date df) <->
  exists r, In r df /\ survives parse_date df r = true
            /\ c = assigned parse_date df r.
Proof.
  rewrite clean_data_assigned, in_map_iff. split.
  - intros [r [Hc Hr]]. apply filter_In in Hr. exists r. intuition.
  - intros [r [Hr [Hs Hc]]]. exists r. split; [auto|].
    apply filter_In. auto.
Qed.

Lemma clean_data_cleaned (raw : DataFrame) :
  cleaned (clean_data parse_date raw).
Proof.
  intros c Hc. apply clean_data_In in Hc. destruct Hc as [r [_ [Hs Hc]]].
  apply survives_spec in Hs. destruct Hs as [Hv [t Ht]]. subst c.
  unfold assigned; simpl. eauto.
Qed.

Lemma assigned_cleaned (df : DataFrame) (r : Row) :
  Pandas.isna (Value r) = false -> (exists t, Survey_Year r = Stamp t) ->
  assigned parse_date df r = r /\ survives parse_date df r = true.
Proof.
  intros Hv [t Ht]. unfold survives, assigned, Pandas.fillna, Pandas.notna.
  rewrite Hv, Ht. simpl. rewrite Hv. split; [|reflexivity].
  destruct r; simpl in *. unfold set_Survey_Year, set_Value; simpl.
  now subst.
Qed.

(** A frame that already meets the invariants is left as it is. *)
Lemma clean_data_fixpoint (d : DataFrame) :
  cleaned d -> clean_data parse_date d = d.
Proof.
  intros H. rewrite clean_data_assigned.
  rewrite filter_all.
  - apply map_id_on. intros r Hr. destruct (H r Hr) as [Hv Ht].
    apply assigned_cleaned; assumption.
  - intros r Hr. destruct (H r Hr) as [Hv Ht].
    apply assigned_cleaned; assumption.
Qed.

Lemma clean_data_twice (raw : DataFrame) :
  clean_data parse_date (clean_data parse_date raw)
  = clean_data parse_date raw.
Proof. apply clean_data_fixpoint, clean_data_cleaned. Qed.

End CleaningFacts.

(** ** Sorting is a permutation *)

Section SortFacts.

Variable A : Type.
Variable leb : A -> A -> bool.

Lemma insert_sorted_Permutation (x : A) (l : list A) :
  Permutation (Pandas.insert_sorted leb x l) (x :: l).
Proof.
  induction l as [| y t IH]; simpl; [apply Permutation_refl|].
  destruct (leb x y); [apply Permutation_refl|].
  eapply perm_trans; [apply perm_skip, IH | apply perm_swap].
Qed.

Lemma sort_values_Permutation (l : list A) :
  Permutation (Pandas.sort_values leb l) l.
Proof.
  induction l as [| x t IH]; simpl; [constructor|].
  eapply perm_trans; [apply insert_sorted_Permutation|].
  apply perm_skip, IH.
Qed.

End SortFacts.

(** ** The order of the floats and the median *)

Lemma notna_Prim2SF (x : float) :
  Pandas.notna x = true -> Prim2SF x <> S754_nan.
Proof.
  unfold Pandas.notna, Pandas.isna, is_nan.
  rewrite FloatAxioms.eqb_spec. intros H E. rewrite E in H.
  simpl in H. discriminate.
Qed.

Lemma SFleb_key (f1 f2 : spec_float) :
  f1 <> S754_nan -> f2 <> S754_nan ->
  (SFleb f1 f2 = true <-> key_le (float_key f1) (float_key f2)).
Proof.
  intros H1 H2.
  destruct f1 as [s1 | s1 | | s1 m1 e1], f2 as [s2 | s2 | | s2 m2 e2];
    try congruence; unfold SFleb, SFcompare, key_le, float_key;
    try destruct s1; try destruct s2; simpl;
    try (split; [intros _; lia | reflexivity]);
    try (split; [discriminate | intros; lia]).
  - change (Pos.compare_cont Eq m1 m2) with (Pos.compare m1 m2).
    destruct (Z.compare_spec e1 e2); destruct (Pos.compare_spec m1 m2);
      simpl; split; intros; try lia; try discriminate; try reflexivity.
  - change (Pos.compare_cont Eq m1 m2) with (Pos.compare m1 m2).
    destruct (Z.compare_spec e1 e2); destruct (Pos.compare_spec m1 m2);
      simpl; split; intros; try lia; try discriminate; try reflexivity.
Qed.

Lemma float_leb_key (x y : float) :
  Pandas.notna x = true -> Pandas.notna y = true ->
  (PrimFloat.leb x y = true <->
   key_le (float_key (Prim2SF x)) (float_key (Prim2SF y))).
Proof.
  intros Hx Hy. rewrite FloatAxioms.leb_spec.
  apply SFleb_key; apply notna_Prim2SF; assumption.
Qed.

Lemma float_leb_total (x y : float) :
  Pandas.notna x = true -> Pandas.notna y = true ->
  PrimFloat.leb x y = true \/ PrimFloat.leb y x = true.
Proof.
  intros Hx Hy. rewrite !float_leb_key by assumption.
  destruct (float_key (Prim2SF x)) as [[a1 a2] a3].
  destruct (float_key (Prim2SF y)) as [[b1 b2] b3].
  unfold key_le. simpl. lia.
Qed.

Lemma float_leb_trans (x y z : float) :
  Pandas.notna x = true -> Pandas.notna y = true -> Pandas.notna z = true ->
  PrimFloat.leb x y = true -> PrimFloat.leb y z = true ->
  PrimFloat.leb x z = true.
Proof.
  intros Hx Hy Hz. rewrite !float_leb_key by assumption.
  destruct (float_key (Prim2SF x)) as [[a1 a2] a3].
  destruct (float_key (Prim2SF y)) as [[b1 b2] b3].
  destruct (float_key (Prim2SF z)) as [[c1 c2] c3].
  unfold key_le. simpl. lia.
Qed.

Section SortedOn.

Variable A : Type.
Variable leb : A -> A -> bool.
Variable P : A -> Prop.
Hypothesis leb_total_on :
  forall a b, P a -> P b -> leb a b = true \/ leb b a = true.
Hypothesis leb_trans_on :
  forall a b c, P a -> P b -> P c ->
                leb a b = true -> leb b c = true -> leb a c = true.

Lemma insert_sorted_StronglySorted (x : A) (l : list A) :
  P x -> Forall P l ->
  StronglySorted (fun a b => leb a b = true) l ->
  StronglySorted (fun a b => leb a b = true) (Pandas.insert_sorted leb x l).
Proof.
  intros Hx Hl Hs. induction Hs as [| y t Hs IH Hall]; simpl.
  - repeat constructor.
  - inversion Hl as [| ? ? Hy Ht]; subst.
    destruct (leb x y) eqn:E.
    + constructor; [constructor; assumption|].
      constructor; [exact E|].
      rewrite Forall_forall in *. intros z Hz.
      apply (leb_trans_on Hx Hy (Ht z Hz) E (Hall z Hz)).
    + constructor; [apply IH, Ht|].
      apply (Permutation_Forall (Permutation_sym (insert_sorted_Permutation leb x t))).
      constructor; [|exact Hall].
      destruct (leb_total_on Hx Hy) as [H | H]; [congruence | exact H].
Qed.

Lemma sort_values_StronglySorted (l : list A) :
  Forall P l ->
  StronglySorted (fun a b => leb a b = true) (Pandas.sort_values leb l).
Proof.
  induction l as [| x t IH]; simpl; intros H; [constructor|].
  inversion H as [| ? ? Hx Ht]; subst.
  apply insert_sorted_StronglySorted; [exact Hx | | apply IH, Ht].
  apply (Permutation_Forall (Permutation_sym (sort_values_Permutation leb t))), Ht.
Qed.

End SortedOn.

(** [Series.median()] returns the median, in the words of the
    specification, of the entries that are not missing. *)
Lemma median_is_median_of (col : list float) :
  median_of col (Pandas.median col).
Proof.
  exists (Pandas.sort_values PrimFloat.leb (filter Pandas.notna col)).
  split; [apply sort_values_Permutation|]. split.
  - apply (@sort_values_StronglySorted _ PrimFloat.leb
             (fun v => Pandas.notna v = true)).
    + intros a b. apply float_leb_total.
    + intros a b c. apply float_leb_trans.
    + apply Forall_forall. intros v Hv. apply filter_In in Hv. tauto.
  - unfold Pandas.median, middle.
    destruct (Pandas.sort_values PrimFloat.leb (filter Pandas.notna col));
      reflexivity.
Qed.

Section CleaningClaims.

Variable parse_date : list DateCell -> string -> option Timestamp.

Lemma median_all_missing (col : list float) :
  (forall v, In v col -> Pandas.isna v = true) -> Pandas.median col = nan.
Proof.
  intros H. unfold Pandas.median.
  rewrite filter_none; [reflexivity|].
  intros v Hv. unfold Pandas.notna. now rewrite (H v Hv).
Qed.

(** C2: every missing [Value] is replaced by the median of the values
    present in the raw frame, taken before anything is filled.  The
    value filled in is the median of the raw values that are not
    missing: the middle of those values in ascending order, the mean of
    the two middle ones when their count is even.  The rows of the
    cleaned frame are, in order, the surviving raw rows, a missing
    value replaced by that median and a present value kept; a row with
    a missing value, a date that parses and a median that is a number
    is in the cleaned frame with the median as its value; and a raw
    frame with the values 10, missing, 30 and dates that parse is
    cleaned to the values 10, 20, 30. *)
Theorem clean_data_fills_median (raw : DataFrame) :
  let median_value := Pandas.median (map Value raw) in
  median_of (map Value raw) median_value
  /\ Forall2 (fun r c =>
                Value c = if Pandas.isna (Value r) then median_value
                          else Value r)
             (filter (survives parse_date raw) raw)
             (clean_data parse_date raw)
  /\ (forall r, In r raw ->
        Pandas.isna (Value r) = true ->
        Pandas.isna median_value = false ->
        (exists t, to_datetime_coerce parse_date (map Survey_Year raw)
                     (Survey_Year r) = Stamp t) ->
        In (assigned parse_date raw r) (clean_data parse_date raw)
        /\ Value (assigned parse_date raw r) = median_value)
  /\ (map Value raw = [10; nan; 30]%float ->
      (forall r, In r raw ->
         exists t, to_datetime_coerce parse_date (map Survey_Year raw)
                     (Survey_Year r) = Stamp t) ->
      map Value (clean_data parse_date raw) = [10; 20; 30]%float).
Proof.
  intros median_value. split; [apply median_is_median_of|]. split; [|split].
  - rewrite clean_data_assigned. apply Forall2_map_right.
    intros r _. reflexivity.
  - intros r Hr Hv Hm Ht. split.
    + apply clean_data_In. exists r. split; [assumption|]. split; [|reflexivity].
      apply survives_spec. split; [|assumption].
      unfold Pandas.fillna. rewrite Hv. exact Hm.
    + unfold assigned, Pandas.fillna; simpl. now rewrite Hv.
  - intros Hvals Hdates.
    assert (Hm : Pandas.median (map Value raw) = 20%float)
      by (rewrite Hvals; reflexivity).
    assert (Hin : forall r, In r raw ->
                   Pandas.isna (Pandas.fillna 20 (Value r)) = false).
    { intros r Hr. apply (in_map Value) in Hr. rewrite Hvals in Hr.
      simpl in Hr. destruct Hr as [H | [H | [H | []]]]; rewrite <- H;
        reflexivity. }
    rewrite clean_data_assigned, filter_all.
    + rewrite map_map.
      transitivity (map (Pandas.fillna 20) (map Value raw)).
      * rewrite map_map. apply map_ext. intros r.
        unfold assigned; simpl. now rewrite Hm.
      * rewrite Hvals. reflexivity.
    + intros r Hr. apply survives_spec. rewrite Hm. auto.
Qed.

(** C3: a row whose [Survey Year] does not parse is dropped, whatever
    its other fields hold: its image under the two column assignments
    carries NaT and is not in the cleaned frame, whose rows are exactly
    the images of the surviving rows; and every row of the cleaned
    frame has a timestamp as [Survey Year] and a [Value] that is not
    missing. *)
Theorem clean_data_drops_invalid_dates (raw : DataFrame) :
  clean_data parse_date raw
  = map (assigned parse_date raw) (filter (survives parse_date raw) raw)
  /\ (forall r, In r raw ->
        to_datetime_coerce parse_date (map Survey_Year raw) (Survey_Year r)
        = NaT ->
        survives parse_date raw r = false
        /\ Survey_Year (assigned parse_date raw r) = NaT
        /\ ~ In (assigned parse_date raw r) (clean_data parse_date raw))
  /\ (forall c, In c (clean_data parse_date raw) ->
        (exists t, Survey_Year c = Stamp t)
        /\ Pandas.isna (Value c) = false).
Proof.
  split; [apply clean_data_assigned|]. split.
  - intros r _ Hnat. split; [|split].
    + unfold survives, assigned; simpl. rewrite Hnat. simpl.
      apply andb_false_r.
    + unfold assigned; simpl. exact Hnat.
    + intros Hin.
      destruct (clean_data_cleaned parse_date raw _ Hin) as [_ [t Ht]].
      unfold assigned in Ht; simpl in Ht. congruence.
  - intros c Hc. destruct (clean_data_cleaned parse_date raw _ Hc). auto.
Qed.

(** C7: cleaning is idempotent.  On a frame with no missing [Value]
    whose dates all parse, cleaning drops no row and changes no value
    (it only re-types the dates), and cleaning the result again gives
    the same frame; when the dates are timestamps already, the frame is
    returned as it is. *)
Theorem clean_data_idempotent (d : DataFrame) :
  (forall r, In r d ->
     Pandas.isna (Value r) = false
     /\ exists t, to_datetime_coerce parse_date (map Survey_Year d)
                    (Survey_Year r) = Stamp t) ->
  clean_data parse_date (clean_data parse_date d) = clean_data parse_date d
  /\ clean_data parse_date d = to_datetime_Survey_Year parse_date d
  /\ (cleaned d -> clean_data parse_date d = d).
Proof.
  intros H. split; [apply clean_data_twice|]. split.
  - rewrite clean_data_assigned, filter_all.
    + unfold to_datetime_Survey_Year. apply map_ext_in. intros r Hr.
      destruct (H r Hr) as [Hv _]. unfold assigned, Pandas.fillna.
      rewrite Hv. destruct r; reflexivity.
    + intros r Hr. destruct (H r Hr) as [Hv Ht]. apply survives_spec.
      split; [|assumption]. unfold Pandas.fillna. now rewrite Hv.
  - apply clean_data_fixpoint.
Qed.

(** C8: when every [Value] of the raw frame is missing, the median is
    NaN, filling leaves every [Value] missing, and the cleaned frame is
    empty. *)
Theorem clean_data_all_missing (raw : DataFrame) :
  (forall r, In r raw -> Pandas.isna (Value r) = true) ->
  Pandas.median (map Value raw) = nan
  /\ (forall r, In r (fillna_Value (Pandas.median (map Value raw)) raw) ->
        Pandas.isna (Value r) = true)
  /\ clean_data parse_date raw = [].
Proof.
  intros H.
  assert (Hm : Pandas.median (map Value raw) = nan).
  { apply median_all_missing. intros v Hv. apply in_map_iff in Hv.
    destruct Hv as [r [<- Hr]]. auto. }
  split; [exact Hm|]. split.
  - intros r Hr. unfold fillna_Value in Hr. apply in_map_iff in Hr.
    destruct Hr as [r0 [<- Hr0]]. simpl. unfold Pandas.fillna.
    rewrite (H r0 Hr0), Hm. reflexivity.
  - rewrite clean_data_assigned, filter_none; [reflexivity|].
    intros r Hr. unfold survives, assigned, Pandas.notna, Pandas.fillna.
    simpl. rewrite (H r Hr), Hm. reflexivity.
Qed.

(** C10: cleaning leaves [Country], [Gender], [Demographics Question],
    [Demographics Response] and [Question] as they were.  The cleaned
    rows are, in order, the surviving raw rows, each with those five
    fields unchanged, its [Value] filled and its [Survey Year]
    re-typed; so the five-field projection of the cleaned frame is a
    subsequence of that of the raw frame. *)
Theorem clean_data_keeps_other_fields (raw : DataFrame) :
  subseq (filter (survives parse_date raw) raw) raw
  /\ Forall2 (fun r c =>
                other_fields c = other_fields r
                /\ Value c = Pandas.fillna (Pandas.median (map Value raw))
                               (Value r)
                /\ Survey_Year c
                   = to_datetime_coerce parse_date (map Survey_Year raw)
                       (Survey_Year r))
             (filter (survives parse_date raw) raw)
             (clean_data parse_date raw)
  /\ subseq (map other_fields (clean_data parse_date raw))
            (map other_fields raw).
Proof.
  split; [apply subseq_filter|]. split.
  - rewrite clean_data_assigned. apply Forall2_map_right.
    intros r _. repeat split.
  - rewrite clean_data_assigned, map_map.
    replace (fun x => other_fields (assigned parse_date raw x))
      with other_fields by reflexivity.
    apply subseq_map, subseq_filter.
Qed.

End CleaningClaims.

(** ** Filtering *)

Lemma isin_spec (c : option string) (values : list string) :
  Pandas.isin c values = true <-> exists s, c = Some s /\ In s values.
Proof.
  destruct c as [s|]; simpl.
  - rewrite existsb_exists. split.
    + intros [x [Hx He]]. apply String.eqb_eq in He. subst x. eauto.
    + intros [x [Hx Hin]]. injection Hx as <-. exists s. split; [assumption|].
      apply String.eqb_refl.
  - split; [discriminate|]. intros [s [H _]]. discriminate.
Qed.

Lemma year_bounds_spec (c : DateCell) (lo hi : Z) :
  year_ge (dt_year c) lo && year_le (dt_year c) hi = true <->
  exists t, c = Stamp t /\ (lo <= year t <= hi)%Z.
Proof.
  destruct c as [s| |t|]; simpl;
    try (split; [discriminate | intros [t [H _]]; discriminate]).
  rewrite andb_true_iff, !Z.leb_le. split.
  - intros H. exists t. split; [reflexivity | lia].
  - intros [t' [Ht H]]. injection Ht as <-. lia.
Qed.

Lemma mask_spec (p : FilterParams) (r : Row) :
  mask p r = true <->
  (exists t, Survey_Year r = Stamp t
             /\ (fst (year_range p) <= year t <= snd (year_range p))%Z)
  /\ (exists c, Country r = Some c /\ In c (selected_countries p))
  /\ (exists g, Gender r = Some g /\ In g (selected_genders p))
  /\ (exists q, Demographics_Question r = Some q
                /\ In q (selected_demographics p)).
Proof.
  unfold mask. rewrite !andb_true_iff, <- !isin_spec, <- year_bounds_spec.
  rewrite andb_true_iff. tauto.
Qed.

(** C1: the filter keeps a row exactly when all four tests hold: the
    year of its [Survey Year] is within the two bounds of the range,
    bounds included, its [Country] is among the selected countries, its
    [Gender] among the selected genders and its [Demographics Question]
    among the selected questions; an empty selection of countries, of
    genders or of questions leaves no row. *)
Theorem filtered_retains_iff_all_four :
  (forall (df_clean : DataFrame) (p : FilterParams) (r : Row),
     In r (filtered df_clean p) <->
     In r df_clean
     /\ (exists t, Survey_Year r = Stamp t
                   /\ (fst (year_range p) <= year t
                       <= snd (year_range p))%Z)
     /\ (exists c, Country r = Some c /\ In c (selected_countries p))
     /\ (exists g, Gender r = Some g /\ In g (selected_genders p))
     /\ (exists q, Demographics_Question r = Some q
                   /\ In q (selected_demographics p)))
  /\ (forall df_clean years genders questions,
        filtered df_clean (mkFilterParams years [] genders questions) = [])
  /\ (forall df_clean years countries questions,
        filtered df_clean (mkFilterParams years countries [] questions) = [])
  /\ (forall df_clean years countries genders,
        filtered df_clean (mkFilterParams years countries genders []) = []).
Proof.
  split; [|repeat split].
  - intros df_clean p r. unfold filtered.
    rewrite filter_In, mask_spec. reflexivity.
  - intros. apply filter_none. intros r _. unfold mask; simpl.
    destruct (Country r); simpl; now rewrite ?andb_false_r.
  - intros. apply filter_none. intros r _. unfold mask; simpl.
    destruct (Gender r); simpl; now rewrite ?andb_false_r.
  - intros. apply filter_none. intros r _. unfold mask; simpl.
    destruct (Demographics_Question r); simpl; now rewrite ?andb_false_r.
Qed.

(** C9: the filtered frame is a subsequence of the cleaned frame: its
    rows are rows of the cleaned frame, unchanged, in the same order
    and none more often than there. *)
Theorem filtered_is_subsequence (df_clean : DataFrame) (p : FilterParams) :
  subseq (filtered df_clean p) df_clean
  /\ (forall r, In r (filtered df_clean p) -> In r df_clean)
  /\ List.length (filtered df_clean p) <= List.length df_clean.
Proof.
  assert (H : subseq (filtered df_clean p) df_clean)
    by apply subseq_filter.
  split; [exact H|]. split.
  - apply (subseq_In H).
  - apply (subseq_length H).
Qed.

(** ** Aggregations *)

Lemma insert_sorted_Z (x : Z) (l : list Z) :
  StronglySorted Z.le l -> StronglySorted Z.le (Pandas.insert_sorted Z.leb x l).
Proof.
  induction 1 as [| y t Hs IH Hall]; simpl.
  - repeat constructor.
  - destruct (Z.leb_spec x y) as [Hle | Hlt].
    + constructor; [constructor; assumption|].
      constructor; [assumption|].
      eapply Forall_impl; [|exact Hall]. intros z Hz. simpl in Hz. lia.
    + constructor; [exact IH|].
      apply (Permutation_Forall
               (Permutation_sym (insert_sorted_Permutation Z.leb x t))).
      constructor; [lia | assumption].
Qed.

Lemma sort_values_Z (l : list Z) :
  StronglySorted Z.le (Pandas.sort_values Z.leb l).
Proof.
  induction l as [| x t IH]; simpl; [constructor|].
  apply insert_sorted_Z, IH.
Qed.

Lemma sorted_distinct_strict (l : list Z) :
  StronglySorted Z.le l -> NoDup l -> StronglySorted Z.lt l.
Proof.
  induction 1 as [| y t Hs IH Hall]; intros Hnd; [constructor|].
  inversion Hnd as [| ? ? Hnotin Hnd']; subst.
  constructor; [apply IH, Hnd'|].
  rewrite Forall_forall in *. intros z Hz.
  specialize (Hall z Hz). simpl in Hall.
  assert (z <> y) by (intros ->; contradiction). lia.
Qed.

Section UniqueFacts.

Variable K : Type.
Variable eqb : K -> K -> bool.
Hypothesis eqb_eq : forall a b, eqb a b = true <-> a = b.

Lemma unique_In (l : list K) (x : K) :
  In x (Pandas.unique eqb l) <-> In x l.
Proof.
  induction l as [| y t IH]; simpl; [reflexivity|].
  rewrite filter_In, IH, negb_true_iff. split.
  - intros [H | [H _]]; auto.
  - intros [H | H]; [auto|].
    destruct (eqb y x) eqn:E; [left; now apply eqb_eq | auto].
Qed.

Lemma unique_NoDup (l : list K) : NoDup (Pandas.unique eqb l).
Proof.
  induction l as [| y t IH]; simpl; constructor.
  - rewrite filter_In, negb_true_iff. intros [_ H].
    assert (eqb y y = true) by now apply eqb_eq. congruence.
  - apply NoDup_filter, IH.
Qed.

Lemma count_up_sum (k : K) (tbl : list (K * nat)) :
  list_sum (map snd (Pandas.count_up eqb k tbl))
  = S (list_sum (map snd tbl)).
Proof.
  induction tbl as [| [k' n] t IH]; simpl; [reflexivity|].
  destruct (eqb k k'); simpl; [reflexivity|]. rewrite IH. lia.
Qed.

Lemma counters_sum (l : list K) (tbl : list (K * nat)) :
  list_sum (map snd (fold_left (fun tbl k => Pandas.count_up eqb k tbl) l tbl))
  = List.length l + list_sum (map snd tbl).
Proof.
  revert tbl. induction l as [| k t IH]; intros tbl; simpl; [reflexivity|].
  rewrite IH, count_up_sum. lia.
Qed.

(** The counts of [value_counts] add up to the number of cells that
    are not missing. *)
Lemma value_counts_sum (col : list (option K)) :
  list_sum (map snd (Pandas.value_counts eqb col))
  = List.length (Pandas.dropna_col col).
Proof.
  unfold Pandas.value_counts.
  rewrite (Permutation_list_sum
             (Permutation_map snd (sort_values_Permutation _ _))).
  rewrite counters_sum. simpl. lia.
Qed.

End UniqueFacts.

Lemma dropna_col_In (A : Type) (col : list (option A)) (a : A) :
  In a (Pandas.dropna_col col) <-> In (Some a) col.
Proof.
  unfold Pandas.dropna_col. rewrite in_flat_map. split.
  - intros [[b|] [Hc Hin]]; simpl in Hin; [|contradiction].
    destruct Hin as [-> | []]. exact Hc.
  - intros H. exists (Some a). simpl. auto.
Qed.

Lemma dropna_col_all_present (A R : Type) (f : R -> option A) (l : list R) :
  (forall r, In r l -> exists a, f r = Some a) ->
  List.length (Pandas.dropna_col (map f l)) = List.length l.
Proof.
  induction l as [| r t IH]; simpl; intros H; [reflexivity|].
  destruct (H r (or_introl eq_refl)) as [a Ha]. rewrite Ha. simpl.
  f_equal. apply IH. auto.
Qed.

Lemma groupby_keys (K R : Type) (eqb leb : K -> K -> bool)
    (key : R -> option K) (df : list R) :
  map fst (Pandas.groupby eqb leb key df)
  = Pandas.sort_values leb
      (Pandas.unique eqb (Pandas.dropna_col (map key df))).
Proof. unfold Pandas.groupby. rewrite map_map. simpl. apply map_id. Qed.

Lemma mean_Value_keys (K : Type) (group_mean : list float -> float)
    (groups : list (K * list Row)) :
  map fst (mean_Value group_mean groups) = map fst groups.
Proof. unfold mean_Value. rewrite map_map. reflexivity. Qed.

(** C5 (as amended): the counts of the count-by-[Gender] aggregation
    add up to the number of rows whose [Gender] is not missing; on a
    frame returned by the filter, where no [Gender] is missing, that is
    the number of rows of the frame. *)
Theorem gender_counts_sum :
  (forall df : DataFrame,
     list_sum (map snd (gender_counts df))
     = List.length (Pandas.dropna_col (map Gender df)))
  /\ (forall (df_clean : DataFrame) (p : FilterParams),
        list_sum (map snd (gender_counts (filtered df_clean p)))
        = List.length (filtered df_clean p)).
Proof.
  split.
  - intros df. apply value_counts_sum.
  - intros df_clean p. unfold gender_counts. rewrite value_counts_sum.
    apply dropna_col_all_present. intros r Hr.
    apply filter_In in Hr. destruct Hr as [_ Hm].
    apply mask_spec in Hm. destruct Hm as [_ [_ [Hg _]]].
    destruct Hg as [g [Hg _]]. eauto.
Qed.

(** C5 as stated fails on the frame the charts read at first load (no
    button pressed, the slot initialised to the cleaned frame) when a
    row has no [Gender]: the counts add up to 1, the frame has 2
    rows. *)
Lemma gender_counts_sum_first_load :
  list_sum (map snd
    (gender_counts
       (df_filtered None false (clean_data parse_mdy missing_gender_rows)
          select_A_M)))
  <> List.length
       (df_filtered None false (clean_data parse_mdy missing_gender_rows)
          select_A_M).
Proof. vm_compute. discriminate. Qed.

(** C6: the years of the year-mean aggregation are strictly ascending,
    hence without repetition; they are the years present in the frame,
    and each line carries the group mean of the values of its year. *)
Theorem df_yearly_avg_years_ascending (group_mean : list float -> float)
    (df : DataFrame) :
  StronglySorted Z.lt (map fst (df_yearly_avg group_mean df))
  /\ NoDup (map fst (df_yearly_avg group_mean df))
  /\ (forall y, In y (map fst (df_yearly_avg group_mean df)) <->
                exists r, In r df /\ dt_year (Survey_Year r) = Some y)
  /\ (forall y m, In (y, m) (df_yearly_avg group_mean df) ->
        m = group_mean
              (map Value
                 (filter (fun r => Pandas.key_is Z.eqb y
                                     (dt_year (Survey_Year r))) df))).
Proof.
  unfold df_yearly_avg.
  set (key := fun r : Row => dt_year (Survey_Year r)).
  rewrite mean_Value_keys, groupby_keys.
  set (years := Pandas.unique Z.eqb (Pandas.dropna_col (map key df))).
  assert (Hnd : NoDup (Pandas.sort_values Z.leb years)).
  { apply (Permutation_NoDup
             (Permutation_sym (sort_values_Permutation Z.leb years))).
    apply unique_NoDup, Z.eqb_eq. }
  split; [|split; [exact Hnd|split]].
  - apply sorted_distinct_strict; [apply sort_values_Z | exact Hnd].
  - intros y. transitivity (In y years).
    { split; apply Permutation_in;
        [| apply Permutation_sym]; apply sort_values_Permutation. }
    unfold years. rewrite (@unique_In _ _ Z.eqb_eq), dropna_col_In, in_map_iff.
    split; intros [r [H1 H2]]; exists r; auto.
  - intros y m H. unfold mean_Value, Pandas.groupby in H.
    rewrite map_map in H. apply in_map_iff in H.
    destruct H as [k [Hk _]]. simpl in Hk. now inversion Hk.
Qed.

(** ** The properties on concrete frames *)

Example filtered_example :
  filtered two_cleaned_rows select_A_M = [row_A_M_2010].
Proof. reflexivity. Qed.

Example df_yearly_avg_example :
  df_yearly_avg compensated_mean (clean_data parse_mdy (rev three_rows))
  = [(2015%Z, 15%float); (2017%Z, 30%float)].
Proof. reflexivity. Qed.

Example gender_counts_example :
  gender_counts (clean_data parse_mdy three_rows)
  = [("F"%string, 2); ("M"%string, 1)].
Proof. reflexivity. Qed.

Lemma filtered_retains_iff_all_four_witness :
  In row_A_M_2010 (filtered two_cleaned_rows select_A_M)
  /\ ~ In row_B_F_2015 (filtered two_cleaned_rows select_A_M).
Proof.
  pose proof (proj1 filtered_retains_iff_all_four two_cleaned_rows select_A_M)
    as H.
  split.
  - apply H. split; [left; reflexivity|].
    split; [exists (mkTimestamp 2010 1 1 0); simpl; split; [reflexivity|lia]|].
    repeat split; eexists; (split; [reflexivity | left; reflexivity]).
  - intros Hin. apply H in Hin.
    destruct Hin as [_ [_ [[c [Hc Hin]] _]]].
    simpl in Hc, Hin. destruct Hin as [<- | []]. discriminate.
Defined.

Lemma clean_data_fills_median_witness :
  map Value three_rows = [10; nan; 30]%float
  /\ map Value (clean_data parse_mdy three_rows) = [10; 20; 30]%float.
Proof.
  split; [reflexivity|].
  apply (proj2 (proj2 (proj2
           (@clean_data_fills_median parse_mdy three_rows)))).
  - reflexivity.
  - intros r Hr. simpl in Hr.
    destruct Hr as [<- | [<- | [<- | []]]]; eexists; reflexivity.
Defined.

Lemma clean_data_drops_invalid_dates_witness :
  survives parse_mdy invalid_date_rows not_a_date_row = false
  /\ Survey_Year (assigned parse_mdy invalid_date_rows not_a_date_row) = NaT
  /\ ~ In (assigned parse_mdy invalid_date_rows not_a_date_row)
          (clean_data parse_mdy invalid_date_rows).
Proof.
  apply (proj1 (proj2
           (@clean_data_drops_invalid_dates parse_mdy invalid_date_rows))).
  - right; left; reflexivity.
  - reflexivity.
Defined.

Lemma clean_data_idempotent_witness :
  clean_data parse_mdy (clean_data parse_mdy two_cleaned_rows)
  = clean_data parse_mdy two_cleaned_rows
  /\ clean_data parse_mdy two_cleaned_rows = two_cleaned_rows.
Proof.
  assert (H : forall r, In r two_cleaned_rows ->
                Pandas.isna (Value r) = false
                /\ exists t, Survey_Year r = Stamp t).
  { intros r Hr. simpl in Hr.
    destruct Hr as [<- | [<- | []]]; (split; [reflexivity|]);
      eexists; reflexivity. }
  assert (H' : forall r, In r two_cleaned_rows ->
                 Pandas.isna (Value r) = false
                 /\ exists t, to_datetime_coerce parse_mdy
                                (map Survey_Year two_cleaned_rows)
                                (Survey_Year r) = Stamp t).
  { intros r Hr. destruct (H r Hr) as [Hv [t Ht]].
    split; [exact Hv|]. exists t. rewrite Ht. reflexivity. }
  destruct (@clean_data_idempotent parse_mdy two_cleaned_rows H')
    as [H1 [_ H3]].
  split; [exact H1 | exact (H3 H)].
Defined.

Lemma clean_data_all_missing_witness :
  Pandas.median (map Value all_missing_rows) = nan
  /\ clean_data parse_mdy all_missing_rows = [].
Proof.
  assert (H : forall r, In r all_missing_rows -> Pandas.isna (Value r) = true).
  { intros r Hr. simpl in Hr. destruct Hr as [<- | [<- | []]]; reflexivity. }
  destruct (@clean_data_all_missing parse_mdy all_missing_rows H)
    as [H1 [_ H3]].
  split; assumption.
Defined.

(** ** The pivot of the heatmap never raises *)

Lemma pair_eqb_eq (a b : string * string) :
  Pandas.pair_eqb a b = true <-> a = b.
Proof.
  destruct a as [a1 a2], b as [b1 b2]. unfold Pandas.pair_eqb; simpl.
  rewrite andb_true_iff, !String.eqb_eq. split.
  - intros [-> ->]. reflexivity.
  - intros H. injection H as -> ->. auto.
Qed.

Lemma has_duplicates_NoDup (l : list (string * string)) :
  NoDup l -> Pandas.has_duplicates l = false.
Proof.
  induction 1 as [| x t Hnotin Hnd IH]; simpl; [reflexivity|].
  rewrite IH, orb_false_r.
  destruct (existsb (Pandas.pair_eqb x) t) eqn:E; [|reflexivity].
  apply existsb_exists in E. destruct E as [y [Hy He]].
  apply pair_eqb_eq in He. subst y. contradiction.
Qed.

(** The lines of [df_heatmap_data] have distinct (index, column) pairs,
    so [pivot] finds no duplicate entry, whatever the frame. *)
Lemma heatmap_data_never_raises (group_mean : list float -> float)
    (df : DataFrame) :
  exists m, heatmap_data group_mean df = Pandas.Ok m.
Proof.
  unfold heatmap_data, Pandas.pivot, df_heatmap_data, groupby_pair.
  rewrite mean_Value_keys, groupby_keys, has_duplicates_NoDup; [eauto|].
  eapply Permutation_NoDup;
    [apply Permutation_sym, sort_values_Permutation|].
  apply unique_NoDup, pair_eqb_eq.
Qed.

(** ** The chart section *)

(** The chart section raises at the word cloud when the text has no
    word, and nowhere else. *)
Lemma charts_cases (group_mean : list float -> float)
    (process_text : string -> list (string * nat)) (df : DataFrame) :
  (process_text (text df) = []
   /\ charts group_mean process_text df
      = Pandas.Raise
          (Pandas.ValueError
             "We need at least 1 word to plot a word cloud, got 0."))
  \/ (process_text (text df) <> []
      /\ exists m,
           heatmap_data group_mean df = Pandas.Ok m
           /\ charts group_mean process_text df
              = Pandas.Ok
                  (mkCharts (gender_counts df) (process_text (text df))
                     (df_question_avg group_mean df)
                     (df_yearly_avg group_mean df)
                     (df_sunburst_data group_mean df) m
                     (df_grouped_gender group_mean df)
                     (df_stacked_bar_data df))).
Proof.
  unfold charts, generate.
  destruct (process_text (text df)) as [| w ws] eqn:E.
  - left. split; reflexivity.
  - right. split; [discriminate|].
    destruct (heatmap_data_never_raises group_mean df) as [m Hm].
    exists m. rewrite Hm. split; reflexivity.
Qed.

(** C4 (as amended): on an empty frame every pandas aggregation of the
    chart section returns an empty result and raises nothing: no
    count, the empty text, no group, and a pivot with neither lines nor
    columns.  The word-cloud step does not: the empty text has no
    word, [generate] raises [ValueError], and the chart section stops
    there, the tables of charts 4 to 10 not being computed.  On a frame
    whose text has a word the chart section raises nowhere. *)
Theorem aggregations_of_empty_frame (group_mean : list float -> float)
    (process_text : string -> list (string * nat)) :
  process_text EmptyString = [] ->
  (gender_counts [] = []
   /\ text [] = EmptyString
   /\ df_question_avg group_mean [] = []
   /\ df_yearly_avg group_mean [] = []
   /\ df_sunburst_data group_mean [] = []
   /\ df_heatmap_data group_mean [] = []
   /\ heatmap_data group_mean [] = Pandas.Ok (Pandas.mkMatrix [] [])
   /\ df_grouped_gender group_mean [] = []
   /\ df_stacked_bar_data [] = [])
  /\ generate process_text (text [])
     = Pandas.Raise
         (Pandas.ValueError
            "We need at least 1 word to plot a word cloud, got 0.")
  /\ charts group_mean process_text []
     = Pandas.Raise
         (Pandas.ValueError
            "We need at least 1 word to plot a word cloud, got 0.")
  /\ (forall df, process_text (text df) <> [] ->
        exists c, charts group_mean process_text df = Pandas.Ok c).
Proof.
  intros Hempty. split; [repeat split|]. split; [|split].
  - unfold generate. change (text []) with EmptyString.
    rewrite Hempty. reflexivity.
  - destruct (charts_cases group_mean process_text []) as [[_ H] | [H _]].
    + exact H.
    + exfalso. apply H. exact Hempty.
  - intros df Hne.
    destruct (charts_cases group_mean process_text df)
      as [[H _] | [_ [m [_ H]]]]; [contradiction | eauto].
Qed.

(** C4 as stated fails at the word cloud: on the empty frame the text
    is empty, [generate] raises [ValueError], and the chart section
    stops before charts 4 to 10. *)
Lemma wordcloud_raises_on_empty_frame :
  text [] = EmptyString
  /\ generate count_words (text [])
     = Pandas.Raise
         (Pandas.ValueError
            "We need at least 1 word to plot a word cloud, got 0.")
  /\ charts compensated_mean count_words []
     = Pandas.Raise
         (Pandas.ValueError
            "We need at least 1 word to plot a word cloud, got 0.").
Proof. repeat split. Qed.

Lemma aggregations_of_empty_frame_witness :
  count_words EmptyString = []
  /\ heatmap_data compensated_mean [] = Pandas.Ok (Pandas.mkMatrix [] [])
  /\ charts compensated_mean count_words []
     = Pandas.Raise
         (Pandas.ValueError
            "We need at least 1 word to plot a word cloud, got 0.").
Proof.
  destruct (@aggregations_of_empty_frame compensated_mean count_words eq_refl)
    as [[_ [_ [_ [_ [_ [_ [H1 _]]]]]]] [_ [H2 _]]].
  split; [reflexivity|]. split; assumption.
Defined.

(** * Further properties of the script *)

(** ** Sorting with a total comparison *)

Section SortedFacts.

Variable A : Type.
Variable leb : A -> A -> bool.
Hypothesis leb_total : forall a b, leb a b = true \/ leb b a = true.

Lemma insert_sorted_HdRel (y x : A) (l : list A) :
  leb y x = true -> HdRel (fun a b => leb a b = true) y l ->
  HdRel (fun a b => leb a b = true) y (Pandas.insert_sorted leb x l).
Proof.
  intros Hyx Hhd. destruct l as [| z t]; simpl.
  - constructor. exact Hyx.
  - destruct (leb x z); constructor; [exact Hyx|].
    inversion Hhd; assumption.
Qed.

Lemma insert_sorted_Sorted (x : A) (l : list A) :
  Sorted (fun a b => leb a b = true) l ->
  Sorted (fun a b => leb a b = true) (Pandas.insert_sorted leb x l).
Proof.
  induction 1 as [| y t Hs IH Hhd]; simpl.
  - repeat constructor.
  - destruct (leb x y) eqn:E.
    + constructor; [constructor; assumption|]. constructor. exact E.
    + constructor; [exact IH|].
      apply insert_sorted_HdRel; [|exact Hhd].
      destruct (leb_total x y) as [H | H]; [congruence | exact H].
Qed.

Lemma sort_values_Sorted (l : list A) :
  Sorted (fun a b => leb a b = true) (Pandas.sort_values leb l).
Proof.
  induction l as [| x t IH]; simpl; [constructor|].
  apply insert_sorted_Sorted, IH.
Qed.

(** Neighbours of a sorted list without repetition are distinct. *)
Lemma Sorted_NoDup_distinct (l : list A) :
  Sorted (fun a b => leb a b = true) l -> NoDup l ->
  Sorted (fun a b => leb a b = true /\ a <> b) l.
Proof.
  induction 1 as [| y t Hs IH Hhd]; intros Hnd; [constructor|].
  inversion Hnd as [| ? ? Hnotin Hnd']; subst.
  constructor; [apply IH, Hnd'|].
  destruct Hhd as [| z t' Hyz]; constructor.
  split; [exact Hyz|]. intros ->. apply Hnotin. left. reflexivity.
Qed.

End SortedFacts.

Lemma Sorted_impl (A : Type) (R1 R2 : A -> A -> Prop) (l : list A) :
  (forall a b, R1 a b -> R2 a b) -> Sorted R1 l -> Sorted R2 l.
Proof.
  intros H. induction 1 as [| y t Hs IH Hhd]; constructor; [exact IH|].
  destruct Hhd; constructor. auto.
Qed.

Lemma string_leb_neq_ltb (a b : string) :
  String.leb a b = true /\ a <> b -> String.ltb a b = true.
Proof.
  unfold String.leb, String.ltb. intros [Hle Hne].
  destruct (String.compare a b) eqn:E; try reflexivity; try discriminate.
  apply String.compare_eq_iff in E. contradiction.
Qed.

(** ** Sidebar widgets *)

Lemma sorted_unique_options (col : list (option string)) :
  options_of col (sorted_unique col).
Proof.
  unfold options_of, sorted_unique.
  set (u := Pandas.unique String.eqb (Pandas.dropna_col col)).
  assert (Hp : Permutation (Pandas.sort_values String.leb u) u)
    by apply sort_values_Permutation.
  assert (Hnd : NoDup (Pandas.sort_values String.leb u)).
  { apply (Permutation_NoDup (Permutation_sym Hp)).
    apply unique_NoDup, String.eqb_eq. }
  split; [|split; [exact Hnd|]].
  - eapply Sorted_impl; [apply string_leb_neq_ltb|].
    apply Sorted_NoDup_distinct; [|exact Hnd].
    apply sort_values_Sorted, String.leb_total.
  - intros s. transitivity (In s u).
    { split; apply Permutation_in; [|apply Permutation_sym]; exact Hp. }
    unfold u. rewrite (@unique_In _ _ String.eqb_eq), dropna_col_In.
    reflexivity.
Qed.

(** X1: each multiselect offers the labels of its column, every label
    once, in ascending order, and never the missing entry. *)
Theorem sidebar_options (df_clean : DataFrame) :
  options_of (map Country df_clean) (countries df_clean)
  /\ options_of (map Gender df_clean) (genders df_clean)
  /\ options_of (map Demographics_Question df_clean)
       (demographics_questions df_clean).
Proof. repeat split; apply sorted_unique_options. Qed.

Lemma fold_min_spec (t : list Z) (y : Z) :
  In (fold_left Z.min t y) (y :: t)
  /\ forall z, In z (y :: t) -> (fold_left Z.min t y <= z)%Z.
Proof.
  revert y. induction t as [| a t IH]; intros y; simpl.
  - split; [auto|]. intros z [<- | []]. lia.
  - destruct (IH (Z.min y a)) as [Hin Hle]. split.
    + destruct Hin as [H | H]; [|auto].
      rewrite <- H. destruct (Z.min_spec y a) as [[_ ->] | [_ ->]]; auto.
    + intros z Hz.
      assert (H : (fold_left Z.min t (Z.min y a) <= Z.min y a)%Z)
        by (apply Hle; left; reflexivity).
      destruct Hz as [<- | [<- | Hz]]; [lia | lia |].
      apply Hle. right. exact Hz.
Qed.

Lemma fold_max_spec (t : list Z) (y : Z) :
  In (fold_left Z.max t y) (y :: t)
  /\ forall z, In z (y :: t) -> (z <= fold_left Z.max t y)%Z.
Proof.
  revert y. induction t as [| a t IH]; intros y; simpl.
  - split; [auto|]. intros z [<- | []]. lia.
  - destruct (IH (Z.max y a)) as [Hin Hle]. split.
    + destruct Hin as [H | H]; [|auto].
      rewrite <- H. destruct (Z.max_spec y a) as [[_ ->] | [_ ->]]; auto.
    + intros z Hz.
      assert (H : (Z.max y a <= fold_left Z.max t (Z.max y a))%Z)
        by (apply Hle; left; reflexivity).
      destruct Hz as [<- | [<- | Hz]]; [lia | lia |].
      apply Hle. right. exact Hz.
Qed.

Lemma year_column_In (df : DataFrame) (y : Z) :
  In y (Pandas.dropna_col (year_column df)) <->
  exists r, In r df /\ dt_year (Survey_Year r) = Some y.
Proof.
  unfold year_column. rewrite dropna_col_In, in_map_iff.
  split; intros [r [H1 H2]]; exists r; auto.
Qed.

Lemma year_min_max_cases (df_clean : DataFrame) :
  match year_min df_clean, year_max df_clean with
  | Pandas.Ok lo, Pandas.Ok hi =>
      (exists r, In r df_clean /\ dt_year (Survey_Year r) = Some lo)
      /\ (exists r, In r df_clean /\ dt_year (Survey_Year r) = Some hi)
      /\ (forall r y, In r df_clean -> dt_year (Survey_Year r) = Some y ->
            (lo <= y <= hi)%Z)
  | Pandas.Raise e1, Pandas.Raise e2 =>
      e1 = Pandas.ValueError "cannot convert float NaN to integer"
      /\ e2 = e1
      /\ (forall r, In r df_clean -> dt_year (Survey_Year r) = None)
  | _, _ => False
  end.
Proof.
  unfold year_min, year_max, series_min, series_max.
  pose proof (year_column_In df_clean) as Hin.
  destruct (Pandas.dropna_col (year_column df_clean)) as [| y t]; simpl.
  - repeat split. intros r Hr.
    destruct (dt_year (Survey_Year r)) as [y|] eqn:E; [|reflexivity].
    exfalso. apply (proj2 (Hin y)). eauto.
  - destruct (fold_min_spec t y) as [Hmin Hle].
    destruct (fold_max_spec t y) as [Hmax Hge].
    split; [apply Hin, Hmin|]. split; [apply Hin, Hmax|].
    intros r z Hr Hz.
    assert (In z (y :: t)) by (apply Hin; eauto).
    split; [apply Hle | apply Hge]; assumption.
Qed.

(** X2: [year_min] and [year_max] either both raise the [ValueError] of
    [int(NaN)], which happens exactly when no row of the frame has a
    year, or return two years of the frame that bound the year of
    every row. *)
Theorem year_min_max_spec (df_clean : DataFrame) :
  match year_min df_clean, year_max df_clean with
  | Pandas.Ok lo, Pandas.Ok hi =>
      (exists r, In r df_clean /\ dt_year (Survey_Year r) = Some lo)
      /\ (exists r, In r df_clean /\ dt_year (Survey_Year r) = Some hi)
      /\ (forall r y, In r df_clean -> dt_year (Survey_Year r) = Some y ->
            (lo <= y <= hi)%Z)
  | Pandas.Raise e1, Pandas.Raise e2 =>
      e1 = Pandas.ValueError "cannot convert float NaN to integer"
      /\ e2 = e1
      /\ (forall r, In r df_clean -> dt_year (Survey_Year r) = None)
  | _, _ => False
  end.
Proof. exact (year_min_max_cases df_clean). Qed.

Lemma default_widgets_cases (df_clean : DataFrame) :
  (df_clean = []
   /\ default_widgets df_clean
      = Pandas.Raise
          (Pandas.ValueError "cannot convert float NaN to integer"))
  \/ (exists r, In r df_clean /\ dt_year (Survey_Year r) = None)
  \/ (exists lo hi,
        year_min df_clean = Pandas.Ok lo /\ year_max df_clean = Pandas.Ok hi
        /\ (exists r, In r df_clean /\ dt_year (Survey_Year r) = Some lo)
        /\ (exists r, In r df_clean /\ dt_year (Survey_Year r) = Some hi)
        /\ (forall r y, In r df_clean ->
              dt_year (Survey_Year r) = Some y -> (lo <= y <= hi)%Z)
        /\ ((lo = hi
             /\ default_widgets df_clean
                = Pandas.Raise Pandas.StreamlitAPIException)
            \/ ((lo < hi)%Z
                /\ default_widgets df_clean
                   = Pandas.Ok
                       (mkFilterParams (lo, hi)
                          (firstn 5 (countries df_clean))
                          (genders df_clean)
                          (demographics_questions df_clean))))).
Proof.
  pose proof (year_min_max_cases df_clean) as H. unfold default_widgets.
  destruct (year_min df_clean) as [lo | e1], (year_max df_clean) as [hi | e2];
    try contradiction.
  - right. right. exists lo, hi. destruct H as [Hlo [Hhi H]].
    split; [reflexivity|]. split; [reflexivity|].
    split; [exact Hlo|]. split; [exact Hhi|]. split; [exact H|].
    assert (Hle : (lo <= hi)%Z).
    { destruct Hlo as [r [Hr Hy]]. apply (H r lo Hr Hy). }
    unfold slider_default. destruct (Z.leb_spec hi lo).
    + left. split; [lia | reflexivity].
    + right. split; [lia | reflexivity].
  - destruct H as [-> [-> Hall]]. destruct df_clean as [| r t].
    + left. split; reflexivity.
    + right. left. exists r. split; [left; reflexivity|].
      apply Hall. left. reflexivity.
Qed.

Lemma cleaned_has_year (df : DataFrame) (r : Row) :
  cleaned df -> In r df -> exists t, Survey_Year r = Stamp t
                                     /\ dt_year (Survey_Year r) = Some (year t).
Proof.
  intros Hc Hr. destruct (Hc r Hr) as [_ [t Ht]]. exists t.
  rewrite Ht. auto.
Qed.

Section SidebarOnCleaned.

Variable parse_date : list DateCell -> string -> option Timestamp.

Lemma clean_data_nil_when (raw : DataFrame) :
  (forall r, In r raw -> Pandas.isna (Value r) = true)
  \/ (forall r, In r raw ->
        to_datetime_coerce parse_date (map Survey_Year raw) (Survey_Year r)
        = NaT) ->
  clean_data parse_date raw = [].
Proof.
  intros H. rewrite clean_data_assigned, filter_none; [reflexivity|].
  intros r Hr. destruct (survives parse_date raw r) eqn:E; [|reflexivity].
  apply survives_spec in E. destruct E as [Hv [t Ht]].
  destruct H as [H | H].
  - rewrite median_all_missing in Hv.
    + unfold Pandas.fillna in Hv. rewrite (H r Hr) in Hv. discriminate.
    + intros v Hin. apply in_map_iff in Hin. destruct Hin as [r0 [<- Hr0]].
      auto.
  - rewrite (H r Hr) in Ht. discriminate.
Qed.

(** X3: on the frame [clean_data] returns, the sidebar stops with the
    [ValueError] of [int(NaN)] exactly when that frame is empty, and
    with the slider's exception exactly when the frame has rows that
    all carry the same year; when two rows differ in their year, the
    default values of the widgets are the year range from the least to
    the greatest year, the first five country options, and every
    gender and question option. *)
Theorem default_widgets_of_cleaned (raw : DataFrame) :
  (clean_data parse_date raw = [] <->
   default_widgets (clean_data parse_date raw)
   = Pandas.Raise (Pandas.ValueError "cannot convert float NaN to integer"))
  /\ ((clean_data parse_date raw <> []
       /\ forall r1 r2,
            In r1 (clean_data parse_date raw) ->
            In r2 (clean_data parse_date raw) ->
            dt_year (Survey_Year r1) = dt_year (Survey_Year r2)) <->
      default_widgets (clean_data parse_date raw)
      = Pandas.Raise Pandas.StreamlitAPIException)
  /\ ((exists r1 r2,
         In r1 (clean_data parse_date raw)
         /\ In r2 (clean_data parse_date raw)
         /\ dt_year (Survey_Year r1) <> dt_year (Survey_Year r2)) ->
      exists lo hi,
        (lo < hi)%Z
        /\ year_min (clean_data parse_date raw) = Pandas.Ok lo
        /\ year_max (clean_data parse_date raw) = Pandas.Ok hi
        /\ default_widgets (clean_data parse_date raw)
           = Pandas.Ok
               (mkFilterParams (lo, hi)
                  (firstn 5 (countries (clean_data parse_date raw)))
                  (genders (clean_data parse_date raw))
                  (demographics_questions (clean_data parse_date raw)))).
Proof.
  pose proof (clean_data_cleaned parse_date raw) as Hc.
  set (df := clean_data parse_date raw) in *.
  destruct (default_widgets_cases df) as [[Hnil Hr] | [Hbad | Hok]].
  - split; [tauto|]. split.
    + split; [intros [Hne _]; contradiction|].
      rewrite Hr. discriminate.
    + intros [r1 [r2 [H1 _]]]. rewrite Hnil in H1. contradiction.
  - destruct Hbad as [r [Hr Hy]].
    destruct (@cleaned_has_year df r Hc Hr) as [t [_ Ht]]. congruence.
  - destruct Hok as [lo [hi [Hmin [Hmax [Hlo [Hhi [Hb Hd]]]]]]].
    assert (Hne : df <> []).
    { destruct Hlo as [r [Hr _]]. intros E. rewrite E in Hr. contradiction. }
    assert (Hyear : forall r, In r df ->
                      exists y, dt_year (Survey_Year r) = Some y
                                /\ (lo <= y <= hi)%Z).
    { intros r Hr. destruct (@cleaned_has_year df r Hc Hr) as [t [_ Ht]].
      exists (year t). split; [exact Ht|]. apply (Hb r _ Hr Ht). }
    destruct Hd as [[Heq Hd] | [Hlt Hd]].
    + split; [|split].
      * split; [contradiction|]. rewrite Hd. discriminate.
      * split; [intros _; exact Hd|]. intros _. split; [exact Hne|].
        intros r1 r2 H1 H2.
        destruct (Hyear r1 H1) as [y1 [E1 B1]].
        destruct (Hyear r2 H2) as [y2 [E2 B2]].
        rewrite E1, E2. f_equal. lia.
      * intros [r1 [r2 [H1 [H2 Hdiff]]]]. exfalso. apply Hdiff.
        destruct (Hyear r1 H1) as [y1 [E1 B1]].
        destruct (Hyear r2 H2) as [y2 [E2 B2]].
        rewrite E1, E2. f_equal. lia.
    + split; [|split].
      * split; [contradiction|]. rewrite Hd. discriminate.
      * split; [|rewrite Hd; discriminate].
        intros [_ Hsame]. exfalso.
        destruct Hlo as [r1 [H1 E1]]. destruct Hhi as [r2 [H2 E2]].
        specialize (Hsame r1 r2 H1 H2). rewrite E1, E2 in Hsame.
        injection Hsame as Hsame. lia.
      * intros _. exists lo, hi. auto.
Qed.

(** X4: when every [Value] of the raw frame is missing, or no date of
    it parses, the cleaned frame is empty and the run stops in the
    sidebar with the [ValueError] of [int(NaN)]. *)
Theorem sidebar_raises_without_rows (raw : DataFrame) :
  (forall r, In r raw -> Pandas.isna (Value r) = true)
  \/ (forall r, In r raw ->
        to_datetime_coerce parse_date (map Survey_Year raw) (Survey_Year r)
        = NaT) ->
  year_min (clean_data parse_date raw)
  = Pandas.Raise (Pandas.ValueError "cannot convert float NaN to integer")
  /\ default_widgets (clean_data parse_date raw)
     = Pandas.Raise (Pandas.ValueError "cannot convert float NaN to integer").
Proof.
  intros H. rewrite (clean_data_nil_when raw H). split; reflexivity.
Qed.

End SidebarOnCleaned.

(** ** The filter with the sidebar's values *)

Lemma present_spec (A : Type) (c : option A) :
  present c = true <-> exists a, c = Some a.
Proof.
  destruct c; simpl; split; eauto; try discriminate.
  intros [a H]. discriminate.
Qed.

Lemma default_mask (df_clean : DataFrame) (p : FilterParams) (r : Row) :
  cleaned df_clean -> default_widgets df_clean = Pandas.Ok p ->
  In r df_clean ->
  (mask p r = true <->
   (exists c, Country r = Some c /\ In c (firstn 5 (countries df_clean)))
   /\ present (Gender r) = true
   /\ present (Demographics_Question r) = true).
Proof.
  intros Hc Hd Hr.
  destruct (default_widgets_cases df_clean) as [[Hnil _] | [Hbad | Hok]].
  - subst df_clean. contradiction.
  - destruct Hbad as [r0 [Hr0 Hy]].
    destruct (@cleaned_has_year df_clean r0 Hc Hr0) as [t [_ Ht]]. congruence.
  - destruct Hok as [lo [hi [_ [_ [_ [_ [Hb Hd']]]]]]].
    destruct Hd' as [[_ Hd'] | [_ Hd']]; rewrite Hd' in Hd;
      [discriminate|].
    injection Hd as <-.
    destruct (@cleaned_has_year df_clean r Hc Hr) as [t [Ht Hy]].
    specialize (Hb r (year t) Hr Hy).
    rewrite mask_spec, !present_spec. simpl.
    destruct (sorted_unique_options (map Gender df_clean)) as [_ [_ Hg]].
    destruct (sorted_unique_options (map Demographics_Question df_clean))
      as [_ [_ Hq]].
    split.
    + intros [_ [Hcty [[g [Hg1 _]] [q [Hq1 _]]]]]. eauto.
    + intros [Hcty [[g Hg1] [q Hq1]]]. split; [eauto|]. split; [exact Hcty|].
      split.
      * exists g. split; [exact Hg1|]. apply Hg. rewrite <- Hg1.
        apply in_map. exact Hr.
      * exists q. split; [exact Hq1|]. apply Hq. rewrite <- Hq1.
        apply in_map. exact Hr.
Qed.

(** X5: pressing the button with the widgets at the default values
    the script gives them keeps exactly the rows whose country is
    among the first five country options and
    whose [Gender] and [Demographics Question] are not missing: the
    default year range and the default gender and question selections
    remove no other row.  With at most five countries and no missing
    label the whole cleaned frame is kept. *)
Theorem default_filter (df_clean : DataFrame) (p : FilterParams) :
  cleaned df_clean -> default_widgets df_clean = Pandas.Ok p ->
  (forall r, In r (filtered df_clean p) <->
     In r df_clean
     /\ (exists c, Country r = Some c
                   /\ In c (firstn 5 (countries df_clean)))
     /\ present (Gender r) = true
     /\ present (Demographics_Question r) = true)
  /\ (List.length (countries df_clean) <= 5 ->
      (forall r, In r df_clean ->
         present (Country r) = true /\ present (Gender r) = true
         /\ present (Demographics_Question r) = true) ->
      filtered df_clean p = df_clean).
Proof.
  intros Hc Hd. split.
  - intros r. unfold filtered. rewrite filter_In. split.
    + intros [Hr Hm]. split; [exact Hr|].
      apply (default_mask r Hc Hd Hr). exact Hm.
    + intros [Hr Hm]. split; [exact Hr|].
      apply (default_mask r Hc Hd Hr). exact Hm.
  - intros Hlen Hall. apply filter_all. intros r Hr.
    apply (default_mask r Hc Hd Hr).
    destruct (Hall r Hr) as [Hcty [Hg Hq]].
    split; [|auto]. apply present_spec in Hcty. destruct Hcty as [c Hcty].
    exists c. split; [exact Hcty|].
    rewrite firstn_all2 by exact Hlen.
    destruct (sorted_unique_options (map Country df_clean)) as [_ [_ Ho]].
    apply Ho. rewrite <- Hcty. apply in_map. exact Hr.
Qed.

Lemma subseq_filter_impl (A : Type) (f g : A -> bool) (l : list A) :
  (forall a, In a l -> f a = true -> g a = true) ->
  subseq (filter f l) (filter g l).
Proof.
  induction l as [| a l IH]; simpl; intros H; [constructor|].
  assert (IH' : subseq (filter f l) (filter g l)) by (apply IH; auto).
  destruct (f a) eqn:Ef.
  - rewrite (H a (or_introl eq_refl) Ef). apply subseq_keep. exact IH'.
  - destruct (g a); [apply subseq_drop|]; exact IH'.
Qed.

Lemma mask_widens (p q : FilterParams) (r : Row) :
  widens p q -> mask p r = true -> mask q r = true.
Proof.
  intros [Hlo [Hhi [Hc [Hg Hd]]]]. rewrite !mask_spec.
  intros [[t [Ht Hy]] [[c [Hc1 Hc2]] [[g [Hg1 Hg2]] [d [Hd1 Hd2]]]]].
  split; [exists t; split; [exact Ht | lia]|].
  split; [exists c; auto|]. split; [exists g; auto | exists d; auto].
Qed.

(** X6: widening the year range or adding labels to a selection never
    removes a row: what the narrower widget values keep is a
    subsequence of what the wider ones keep. *)
Theorem filtered_monotone (df_clean : DataFrame) (p q : FilterParams) :
  widens p q ->
  subseq (filtered df_clean p) (filtered df_clean q).
Proof.
  intros H. apply subseq_filter_impl. intros r _. apply mask_widens, H.
Qed.

(** X7: every row the charts get after a press has a [Country], a
    [Gender], a [Demographics Question], a timestamp and a [Value]:
    only [Demographics Response] and [Question] can still be
    missing. *)
Theorem filtered_rows_complete (session_state : SessionState)
    (df_clean : DataFrame) (p : FilterParams) (r : Row) :
  cleaned df_clean ->
  In r (df_filtered session_state true df_clean p) ->
  present (Country r) = true /\ present (Gender r) = true
  /\ present (Demographics_Question r) = true
  /\ (exists t, Survey_Year r = Stamp t)
  /\ Pandas.isna (Value r) = false.
Proof.
  intros Hc Hr. simpl in Hr. unfold filtered in Hr.
  apply filter_In in Hr. destruct Hr as [Hr Hm].
  apply mask_spec in Hm.
  destruct Hm as [[t [Ht _]] [[c [Hc1 _]] [[g [Hg1 _]] [d [Hd1 _]]]]].
  rewrite Hc1, Hg1, Hd1. repeat split; eauto.
  apply (Hc r Hr).
Qed.

(** ** Successive runs *)

Lemma reruns_raising (df_clean : DataFrame) (e : Pandas.Exception)
    (runs : list (bool * FilterParams)) (st : SessionState) :
  default_widgets df_clean = Pandas.Raise e ->
  reruns df_clean st runs = st.
Proof.
  intros H. unfold reruns. revert st.
  induction runs as [| r t IH]; intros st; simpl; [reflexivity|].
  unfold run at 2. rewrite H. apply IH.
Qed.

Lemma reruns_from (df_clean : DataFrame) (d : FilterParams)
    (runs : list (bool * FilterParams)) (acc : option FilterParams) :
  default_widgets df_clean = Pandas.Ok d ->
  reruns df_clean
    (Some (match acc with
           | Some p => filtered df_clean p
           | None => df_clean
           end)) runs
  = Some (match fold_left
                  (fun (acc : option FilterParams)
                       (run : bool * FilterParams) =>
                     if fst run then Some (snd run) else acc) runs acc with
          | Some p => filtered df_clean p
          | None => df_clean
          end).
Proof.
  intros Hd. revert acc.
  induction runs as [| [b p] t IH]; intros acc; simpl; [reflexivity|].
  unfold reruns in *. simpl. unfold run at 2. rewrite Hd. simpl.
  unfold session_after. simpl.
  destruct b.
  - apply (IH (Some p)).
  - apply (IH acc).
Qed.

(** X8: over any series of runs on the same cleaned frame, a frame on
    which the sidebar raises (no row, or one year only) leaves the slot
    unset, every run stopping before the slot logic; otherwise the slot
    holds, after the first run,
    the filter of the last press, taken with the widget values of that
    run, and the whole cleaned frame if the button was never pressed:
    widget changes without a press do not reach the charts.  The slot
    is always a subsequence of the cleaned frame. *)
Theorem reruns_hold_last_press (df_clean : DataFrame)
    (runs : list (bool * FilterParams)) :
  reruns df_clean None runs
  = match default_widgets df_clean, runs with
    | Pandas.Raise _, _ => None
    | Pandas.Ok _, [] => None
    | Pandas.Ok _, _ :: _ =>
        Some (match last_press runs with
              | Some p => filtered df_clean p
              | None => df_clean
              end)
    end
  /\ (forall d, reruns df_clean None runs = Some d -> subseq d df_clean).
Proof.
  assert (H : reruns df_clean None runs
              = match default_widgets df_clean, runs with
                | Pandas.Raise _, _ => None
                | Pandas.Ok _, [] => None
                | Pandas.Ok _, _ :: _ =>
                    Some (match last_press runs with
                          | Some p => filtered df_clean p
                          | None => df_clean
                          end)
                end).
  { destruct (default_widgets df_clean) as [d | e] eqn:Hd.
    - destruct runs as [| [b p] t]; [reflexivity|].
      unfold last_press. simpl. unfold reruns. simpl.
      unfold run at 2. rewrite Hd. simpl. unfold session_after. simpl.
      destruct b.
      + apply (@reruns_from df_clean d t (Some p) Hd).
      + apply (@reruns_from df_clean d t None Hd).
    - apply (@reruns_raising df_clean e runs None Hd). }
  split; [exact H|].
  intros d Hd. rewrite H in Hd.
  destruct (default_widgets df_clean); [|discriminate].
  destruct runs as [| x t]; [discriminate|].
  injection Hd as <-. destruct (last_press (x :: t)).
  - apply subseq_filter.
  - apply subseq_refl.
Qed.

(** ** Groupings *)

Lemma list_sum_map_plus (A : Type) (f g : A -> nat) (l : list A) :
  list_sum (map (fun a => f a + g a) l)
  = list_sum (map f l) + list_sum (map g l).
Proof. induction l as [| a l IH]; simpl; [reflexivity|]. rewrite IH. lia. Qed.

Lemma list_sum_map_zero (A : Type) (f : A -> nat) (l : list A) :
  (forall a, In a l -> f a = 0) -> list_sum (map f l) = 0.
Proof.
  induction l as [| a l IH]; simpl; intros H; [reflexivity|].
  rewrite (H a (or_introl eq_refl)), IH; auto.
Qed.

Lemma dropna_col_length (A R : Type) (f : R -> option A) (l : list R) :
  List.length (Pandas.dropna_col (map f l))
  = List.length (filter (fun r => present (f r)) l).
Proof.
  induction l as [| r t IH]; simpl; [reflexivity|].
  destruct (f r); simpl; now rewrite IH.
Qed.

Lemma present_both (A B : Type) (a : option A) (b : option B) :
  present (Pandas.both a b) = present a && present b.
Proof. destruct a, b; reflexivity. Qed.

Lemma both_spec (A B : Type) (a : option A) (b : option B) (x : A) (y : B) :
  Pandas.both a b = Some (x, y) <-> a = Some x /\ b = Some y.
Proof.
  destruct a, b; simpl; split; try discriminate; try (intros [? ?]; discriminate).
  - intros H. injection H as -> ->. auto.
  - intros [H1 H2]. injection H1 as ->. injection H2 as ->. reflexivity.
Qed.

Section GroupbyFacts.

Variable K : Type.
Variable eqb : K -> K -> bool.
Variable leb : K -> K -> bool.
Hypothesis eqb_eq : forall a b, eqb a b = true <-> a = b.
Variable R : Type.
Variable key : R -> option K.

Lemma key_is_spec (k : K) (c : option K) :
  Pandas.key_is eqb k c = true <-> c = Some k.
Proof.
  destruct c as [k'|]; simpl; [|split; discriminate].
  rewrite eqb_eq. split; [intros ->; reflexivity|].
  intros H. injection H as ->. reflexivity.
Qed.

Lemma groupby_keys_NoDup (df : list R) :
  NoDup (map fst (Pandas.groupby eqb leb key df)).
Proof.
  rewrite groupby_keys.
  eapply Permutation_NoDup;
    [apply Permutation_sym, sort_values_Permutation|].
  apply unique_NoDup, eqb_eq.
Qed.

Lemma groupby_keys_In (df : list R) (k : K) :
  In k (map fst (Pandas.groupby eqb leb key df)) <->
  exists r, In r df /\ key r = Some k.
Proof.
  rewrite groupby_keys.
  transitivity (In k (Pandas.unique eqb (Pandas.dropna_col (map key df)))).
  { split; apply Permutation_in; [|apply Permutation_sym];
      apply sort_values_Permutation. }
  rewrite (@unique_In _ _ eqb_eq), dropna_col_In, in_map_iff.
  split; intros [r [H1 H2]]; exists r; auto.
Qed.

Lemma groupby_In (df : list R) (k : K) (g : list R) :
  In (k, g) (Pandas.groupby eqb leb key df) ->
  g = filter (fun r => Pandas.key_is eqb k (key r)) df
  /\ exists r, In r df /\ key r = Some k.
Proof.
  intros H. split.
  - unfold Pandas.groupby in H. apply in_map_iff in H.
    destruct H as [k' [Hk _]]. now inversion Hk.
  - apply groupby_keys_In. apply (in_map fst) in H. exact H.
Qed.

Lemma group_nonempty (df : list R) (k : K) :
  (exists r, In r df /\ key r = Some k) ->
  0 < List.length (filter (fun r => Pandas.key_is eqb k (key r)) df).
Proof.
  intros [r [Hr Hk]].
  assert (H : In r (filter (fun r => Pandas.key_is eqb k (key r)) df)).
  { apply filter_In. split; [exact Hr|]. apply key_is_spec. exact Hk. }
  destruct (filter (fun r => Pandas.key_is eqb k (key r)) df);
    [contradiction | simpl; lia].
Qed.

Lemma indicator_sum (U : list K) (k0 : K) :
  NoDup U -> In k0 U ->
  list_sum (map (fun k => if eqb k k0 then 1 else 0) U) = 1.
Proof.
  induction 1 as [| x t Hnotin Hnd IH]; simpl; intros Hin; [contradiction|].
  destruct Hin as [-> | Hin].
  - assert (E : eqb k0 k0 = true) by now apply eqb_eq.
    rewrite E. rewrite list_sum_map_zero; [reflexivity|].
    intros a Ha. destruct (eqb a k0) eqn:E'; [|reflexivity].
    apply eqb_eq in E'. subst a. contradiction.
  - destruct (eqb x k0) eqn:E.
    + apply eqb_eq in E. subst x. contradiction.
    + simpl. apply IH, Hin.
Qed.

Lemma sizes_sum (U : list K) (df : list R) :
  NoDup U ->
  (forall r k, In r df -> key r = Some k -> In k U) ->
  list_sum
    (map (fun k =>
            List.length (filter (fun r => Pandas.key_is eqb k (key r)) df)) U)
  = List.length (Pandas.dropna_col (map key df)).
Proof.
  intros Hnd. induction df as [| r t IH]; intros Hall; simpl.
  - apply list_sum_map_zero. reflexivity.
  - transitivity
      (list_sum
         (map (fun k =>
                 (if Pandas.key_is eqb k (key r) then 1 else 0)
                 + List.length
                     (filter (fun r => Pandas.key_is eqb k (key r)) t)) U)).
    { f_equal. apply map_ext. intros k.
      destruct (Pandas.key_is eqb k (key r)); reflexivity. }
    rewrite list_sum_map_plus, IH by (intros; eapply Hall; eauto; now right).
    destruct (key r) as [k0|] eqn:E; simpl.
    + rewrite indicator_sum; [reflexivity | exact Hnd |].
      apply (Hall r k0); [now left | exact E].
    + rewrite list_sum_map_zero; reflexivity.
Qed.

(** The groups of a grouping hold every row whose key is present, each
    once. *)
Lemma groupby_sizes_sum (df : list R) :
  list_sum (map (fun g => List.length (snd g)) (Pandas.groupby eqb leb key df))
  = List.length (Pandas.dropna_col (map key df)).
Proof.
  unfold Pandas.groupby. rewrite map_map. simpl.
  set (U := Pandas.unique eqb (Pandas.dropna_col (map key df))).
  rewrite (Permutation_list_sum
             (Permutation_map
                (fun k => List.length
                            (filter (fun r => Pandas.key_is eqb k (key r)) df))
                (sort_values_Permutation leb U))).
  apply sizes_sum.
  - apply unique_NoDup, eqb_eq.
  - intros r k Hr Hk. unfold U.
    rewrite (@unique_In _ _ eqb_eq), dropna_col_In, <- Hk. apply in_map, Hr.
Qed.

End GroupbyFacts.

Lemma size_of_keys (K : Type) (groups : list (K * list Row)) :
  map fst (size_of groups) = map fst groups.
Proof. unfold size_of. rewrite map_map. reflexivity. Qed.

(** X9: the counts of the stacked-bar table add up to the number of rows
    in which both [Demographics Question] and [Demographics Response]
    are present; each line counts the rows of its own pair, at least
    one, and no pair has two lines. *)
Theorem df_stacked_bar_data_counts (df : DataFrame) :
  list_sum (map snd (df_stacked_bar_data df))
  = List.length
      (filter (fun r => present (Demographics_Question r)
                        && present (Demographics_Response r)) df)
  /\ (forall q a n, In (q, a, n) (df_stacked_bar_data df) ->
        n = List.length
              (filter (fun r => Pandas.key_is Pandas.pair_eqb (q, a)
                                  (Pandas.both (Demographics_Question r)
                                               (Demographics_Response r)))
                      df)
        /\ 0 < n)
  /\ NoDup (map fst (df_stacked_bar_data df)).
Proof.
  unfold df_stacked_bar_data, groupby_pair.
  set (key := fun r : Row => Pandas.both (Demographics_Question r)
                                         (Demographics_Response r)).
  split; [|split].
  - unfold size_of. rewrite map_map. simpl.
    rewrite (@groupby_sizes_sum _ _ Pandas.pair_leb pair_eqb_eq _ key df).
    rewrite dropna_col_length. f_equal. apply filter_ext.
    intros r. apply present_both.
  - intros q a n H. unfold size_of in H. apply in_map_iff in H.
    destruct H as [[k g] [Hk Hg]]. simpl in Hk. inversion Hk; subst.
    destruct (@groupby_In _ _ Pandas.pair_leb pair_eqb_eq _ key df _ _ Hg)
      as [-> Hex].
    split; [reflexivity|].
    apply (@group_nonempty _ _ pair_eqb_eq _ key df). exact Hex.
  - rewrite size_of_keys. apply groupby_keys_NoDup, pair_eqb_eq.
Qed.

(** X10: after a press, the years of the year-mean table lie within the
    selected year range. *)
Theorem df_yearly_avg_within_range (group_mean : list float -> float)
    (session_state : SessionState) (df_clean : DataFrame)
    (p : FilterParams) (y : Z) (m : float) :
  In (y, m) (df_yearly_avg group_mean (df_filtered session_state true df_clean p)) ->
  (fst (year_range p) <= y <= snd (year_range p))%Z.
Proof.
  intros H. simpl in H. apply (in_map fst) in H. simpl in H.
  unfold df_yearly_avg in H. rewrite mean_Value_keys in H.
  apply (@groupby_keys_In _ _ Z.leb Z.eqb_eq) in H.
  destruct H as [r [Hr Hy]]. unfold filtered in Hr.
  apply filter_In in Hr. destruct Hr as [_ Hm]. apply mask_spec in Hm.
  destruct Hm as [[t [Ht Hb]] _]. rewrite Ht in Hy. simpl in Hy.
  injection Hy as <-. exact Hb.
Qed.

(** ** Counting labels *)

Section CountFacts.

Variable K : Type.
Variable eqb : K -> K -> bool.
Hypothesis eqb_eq : forall a b, eqb a b = true <-> a = b.

Lemma eqb_neq (a b : K) : eqb a b = false <-> a <> b.
Proof.
  split.
  - intros E H. apply eqb_eq in H. congruence.
  - intros H. destruct (eqb a b) eqn:E; [|reflexivity].
    apply eqb_eq in E. contradiction.
Qed.

Lemma occurrences_zero (k : K) (l : list K) :
  ~ In k l -> occurrences eqb k l = 0.
Proof.
  intros H. unfold occurrences. rewrite filter_none; [reflexivity|].
  intros a Ha. apply eqb_neq. intros ->. contradiction.
Qed.

Lemma occurrences_pos (k : K) (l : list K) :
  0 < occurrences eqb k l -> In k l.
Proof.
  unfold occurrences. intros H.
  destruct (filter (eqb k) l) as [| a t] eqn:E; [simpl in H; lia|].
  assert (Ha : In a (filter (eqb k) l)) by (rewrite E; left; reflexivity).
  apply filter_In in Ha. destruct Ha as [Ha Hk]. apply eqb_eq in Hk.
  now subst a.
Qed.

Lemma occurrences_snoc (k' k : K) (l : list K) :
  occurrences eqb k' (l ++ [k])
  = occurrences eqb k' l + (if eqb k' k then 1 else 0).
Proof.
  unfold occurrences. rewrite filter_app, length_app. simpl.
  destruct (eqb k' k); reflexivity.
Qed.

Lemma count_up_keys (k : K) (tbl : list (K * nat)) (k' : K) :
  In k' (map fst (Pandas.count_up eqb k tbl)) <->
  k' = k \/ In k' (map fst tbl).
Proof.
  induction tbl as [| [k0 n] t IH]; simpl.
  - split; intros [H | H]; auto.
  - destruct (eqb k k0) eqn:E; simpl.
    + apply eqb_eq in E. subst k0. split; [auto|].
      intros [H | H]; auto.
    + rewrite IH. tauto.
Qed.

Lemma count_up_NoDup (k : K) (tbl : list (K * nat)) :
  NoDup (map fst tbl) -> NoDup (map fst (Pandas.count_up eqb k tbl)).
Proof.
  induction tbl as [| [k0 n] t IH]; simpl; intros H.
  - repeat constructor. intros [].
  - inversion H as [| ? ? Hnotin Hnd]; subst.
    destruct (eqb k k0) eqn:E; simpl; constructor; auto.
    rewrite count_up_keys. intros [Hk | Hk]; [|contradiction].
    apply eqb_neq in E. congruence.
Qed.

Lemma count_up_In (k : K) (tbl : list (K * nat)) (k' : K) (n' : nat) :
  NoDup (map fst tbl) ->
  In (k', n') (Pandas.count_up eqb k tbl) ->
  (k' <> k /\ In (k', n') tbl)
  \/ (k' = k /\ exists n, n' = S n /\ In (k, n) tbl)
  \/ (k' = k /\ n' = 1 /\ ~ In k (map fst tbl)).
Proof.
  induction tbl as [| [k0 n] t IH]; simpl; intros Hnd Hin.
  - destruct Hin as [H | []]. inversion H; subst. right. right. auto.
  - inversion Hnd as [| ? ? Hnotin Hnd']; subst.
    destruct (eqb k k0) eqn:E.
    + apply eqb_eq in E. subst k0. destruct Hin as [H | H].
      * inversion H; subst. right. left. split; [reflexivity|]. eauto.
      * left. split; [|auto]. intros ->. apply Hnotin.
        apply (in_map fst) in H. exact H.
    + apply eqb_neq in E. destruct Hin as [H | H].
      * inversion H; subst. left. auto.
      * destruct (IH Hnd' H) as [[H1 H2] | [[H1 [m [H2 H3]]] | [H1 [H2 H3]]]].
        -- left. auto.
        -- right. left. split; [exact H1|]. eauto.
        -- right. right. split; [exact H1|]. split; [exact H2|].
           intros [Hk | Hk]; [congruence | contradiction].
Qed.

Lemma tallied_count_up (k : K) (tbl : list (K * nat)) (done : list K) :
  tallied eqb tbl done ->
  tallied eqb (Pandas.count_up eqb k tbl) (done ++ [k]).
Proof.
  intros [Hnd [Hn Hcov]]. split; [|split].
  - apply count_up_NoDup, Hnd.
  - intros k' n' Hin. rewrite occurrences_snoc.
    destruct (@count_up_In k tbl k' n' Hnd Hin)
      as [[H1 H2] | [[H1 [m [H2 H3]]] | [H1 [H2 H3]]]].
    + apply eqb_neq in H1. rewrite H1. destruct (Hn k' n' H2). lia.
    + subst k' n'. assert (E : eqb k k = true) by now apply eqb_eq.
      rewrite E. destruct (Hn k m H3). lia.
    + subst k' n'. assert (E : eqb k k = true) by now apply eqb_eq.
      rewrite E, occurrences_zero; [lia|]. intros H. apply H3, Hcov, H.
  - intros k' H. apply count_up_keys. apply in_app_or in H.
    destruct H as [H | [H | []]]; auto.
Qed.

Lemma tallied_fold (rest : list K) (tbl : list (K * nat)) (done : list K) :
  tallied eqb tbl done ->
  tallied eqb (fold_left (fun tbl k => Pandas.count_up eqb k tbl) rest tbl)
          (done ++ rest).
Proof.
  revert tbl done. induction rest as [| k t IH]; intros tbl done H; simpl.
  - rewrite app_nil_r. exact H.
  - replace (done ++ k :: t) with ((done ++ [k]) ++ t)
      by (rewrite <- app_assoc; reflexivity).
    apply IH, tallied_count_up, H.
Qed.

Lemma tallied_nil : tallied eqb [] [].
Proof.
  split; [constructor|]. split; [intros k n []|intros k []].
Qed.

(** The lines of [value_counts]: one per distinct label, each with the
    number of cells holding it, by descending count. *)
Lemma value_counts_lines (col : list (option K)) :
  NoDup (map fst (Pandas.value_counts eqb col))
  /\ (forall k n, In (k, n) (Pandas.value_counts eqb col) ->
        n = occurrences eqb k (Pandas.dropna_col col) /\ 0 < n)
  /\ (forall k, In k (map fst (Pandas.value_counts eqb col)) <->
                In (Some k) col)
  /\ Sorted (fun a b => snd b <= snd a) (Pandas.value_counts eqb col).
Proof.
  unfold Pandas.value_counts.
  set (tbl := fold_left (fun tbl k => Pandas.count_up eqb k tbl)
                        (Pandas.dropna_col col) []).
  set (leb := fun a b : K * nat => Nat.leb (snd b) (snd a)).
  assert (Hp : Permutation (Pandas.sort_values leb tbl) tbl)
    by apply sort_values_Permutation.
  destruct (@tallied_fold (Pandas.dropna_col col) [] [] tallied_nil)
    as [Hnd [Hn Hcov]]. simpl in Hn, Hcov. fold tbl in Hnd, Hn, Hcov.
  split; [|split; [|split]].
  - apply (Permutation_NoDup (Permutation_map fst (Permutation_sym Hp))).
    exact Hnd.
  - intros k n H. apply Hn. apply (Permutation_in _ Hp). exact H.
  - intros k. rewrite <- dropna_col_In. split.
    + intros H. apply (Permutation_in _ (Permutation_map fst Hp)) in H.
      apply in_map_iff in H. destruct H as [[k0 n] [Hk H]].
      simpl in Hk. subst k0. apply occurrences_pos.
      destruct (Hn k n H) as [<- Hpos]. exact Hpos.
    + intros H.
      apply (Permutation_in _ (Permutation_map fst (Permutation_sym Hp))).
      apply Hcov, H.
  - eapply Sorted_impl; [|apply sort_values_Sorted].
    + intros a b H. unfold leb in H. apply Nat.leb_le. exact H.
    + intros a b. unfold leb. rewrite !Nat.leb_le. lia.
Qed.

End CountFacts.

Lemma occurrences_of_column (df : DataFrame) (f : Row -> option string)
    (g : string) :
  occurrences String.eqb g (Pandas.dropna_col (map f df))
  = List.length (filter (fun r => Pandas.key_is String.eqb g (f r)) df).
Proof.
  unfold occurrences. induction df as [| r t IH]; simpl; [reflexivity|].
  destruct (f r) as [g'|]; simpl; [|exact IH].
  destruct (String.eqb g g'); simpl; now rewrite IH.
Qed.

(** X11: the gender table has one line per gender present in the frame,
    each with the number of rows of that gender, at least one, the
    lines by descending count; rows with no [Gender] have no line. *)
Theorem gender_counts_lines (df : DataFrame) :
  NoDup (map fst (gender_counts df))
  /\ (forall g n, In (g, n) (gender_counts df) ->
        n = List.length
              (filter (fun r => Pandas.key_is String.eqb g (Gender r)) df)
        /\ 0 < n)
  /\ (forall g, In g (map fst (gender_counts df)) <->
                exists r, In r df /\ Gender r = Some g)
  /\ Sorted (fun a b => snd b <= snd a) (gender_counts df).
Proof.
  destruct (@value_counts_lines _ _ String.eqb_eq (map Gender df))
    as [H1 [H2 [H3 H4]]].
  split; [exact H1|]. split; [|split; [|exact H4]].
  - intros g n H. rewrite <- occurrences_of_column. apply H2, H.
  - intros g. unfold gender_counts. rewrite H3, in_map_iff.
    split; intros [r [Ha Hb]]; exists r; auto.
Qed.

(** ** Keys of the grouped tables *)

Lemma sort_unique_strings (l : list string) :
  Sorted (fun a b => String.ltb a b = true)
         (Pandas.sort_values String.leb (Pandas.unique String.eqb l))
  /\ forall s, In s (Pandas.sort_values String.leb
                       (Pandas.unique String.eqb l)) <-> In s l.
Proof.
  set (u := Pandas.unique String.eqb l).
  assert (Hp : Permutation (Pandas.sort_values String.leb u) u)
    by apply sort_values_Permutation.
  split.
  - eapply Sorted_impl; [apply string_leb_neq_ltb|].
    apply Sorted_NoDup_distinct.
    + apply sort_values_Sorted, String.leb_total.
    + apply (Permutation_NoDup (Permutation_sym Hp)).
      apply unique_NoDup, String.eqb_eq.
  - intros s. transitivity (In s u).
    + split; apply Permutation_in; [|apply Permutation_sym]; exact Hp.
    + apply unique_In, String.eqb_eq.
Qed.

Lemma pair_leb_total (a b : string * string) :
  Pandas.pair_leb a b = true \/ Pandas.pair_leb b a = true.
Proof.
  unfold Pandas.pair_leb. rewrite (String.eqb_sym (fst b) (fst a)).
  destruct (String.eqb (fst a) (fst b)); apply String.leb_total.
Qed.

Lemma pair_leb_neq_lt (a b : string * string) :
  Pandas.pair_leb a b = true /\ a <> b -> pair_lt a b.
Proof.
  destruct a as [a1 a2], b as [b1 b2]. unfold Pandas.pair_leb, pair_lt.
  simpl. intros [Hle Hne]. destruct (String.eqb a1 b1) eqn:E.
  - apply String.eqb_eq in E. subst b1. right. split; [reflexivity|].
    apply string_leb_neq_ltb. split; [exact Hle|]. congruence.
  - left. apply string_leb_neq_ltb. split; [exact Hle|].
    intros ->. rewrite String.eqb_refl in E. discriminate.
Qed.

Lemma groupby_pair_keys (key1 key2 : Row -> option string) (df : DataFrame) :
  pair_keys_of key1 key2 df (map fst (groupby_pair key1 key2 df)).
Proof.
  unfold groupby_pair.
  set (key := fun r : Row => Pandas.both (key1 r) (key2 r)).
  assert (Hnd : NoDup (map fst (Pandas.groupby Pandas.pair_eqb
                                  Pandas.pair_leb key df)))
    by apply groupby_keys_NoDup, pair_eqb_eq.
  split; [|split; [exact Hnd|]].
  - eapply Sorted_impl; [apply pair_leb_neq_lt|].
    apply Sorted_NoDup_distinct; [|exact Hnd].
    rewrite groupby_keys. apply sort_values_Sorted, pair_leb_total.
  - intros q a.
    rewrite (@groupby_keys_In _ _ Pandas.pair_leb pair_eqb_eq _ key df).
    split; intros [r [Hr Hk]]; exists r; (split; [exact Hr|]).
    + apply both_spec. exact Hk.
    + apply both_spec. exact Hk.
Qed.

(** X12: the key column of every grouped table is ascending, by label
    for the question means and by pair, first label first, for the four
    tables grouped by two columns; it holds every key of the frame once
    and leaves out the rows in which a grouping label is missing. *)
Theorem grouped_tables_keys (group_mean : list float -> float)
    (df : DataFrame) :
  options_of (map Question df) (map fst (df_question_avg group_mean df))
  /\ pair_keys_of Demographics_Question Demographics_Response df
       (map fst (df_sunburst_data group_mean df))
  /\ pair_keys_of Demographics_Question Question df
       (map fst (df_heatmap_data group_mean df))
  /\ pair_keys_of Demographics_Question Gender df
       (map fst (df_grouped_gender group_mean df))
  /\ pair_keys_of Demographics_Question Demographics_Response df
       (map fst (df_stacked_bar_data df)).
Proof.
  unfold df_question_avg, df_sunburst_data, df_heatmap_data,
    df_grouped_gender, df_stacked_bar_data.
  rewrite !mean_Value_keys, size_of_keys.
  split; [|repeat split; apply groupby_pair_keys].
  unfold groupby_label. rewrite groupby_keys.
  apply sorted_unique_options.
Qed.

(** ** The heatmap matrix *)

Lemma df_heatmap_data_In (group_mean : list float -> float)
    (df : DataFrame) (q c : string) (v : float) :
  In (q, c, v) (df_heatmap_data group_mean df) ->
  (exists r, In r df /\ Demographics_Question r = Some q
             /\ Question r = Some c)
  /\ v = group_mean
           (map Value
              (filter (fun r => Pandas.key_is Pandas.pair_eqb (q, c)
                                  (Pandas.both (Demographics_Question r)
                                               (Question r))) df)).
Proof.
  unfold df_heatmap_data, mean_Value, groupby_pair. intros H.
  apply in_map_iff in H. destruct H as [[k g] [Hk Hg]].
  simpl in Hk. inversion Hk; subst.
  apply (@groupby_In _ _ Pandas.pair_leb pair_eqb_eq) in Hg.
  destruct Hg as [-> [r [Hr Hkey]]]. split; [|reflexivity].
  exists r. split; [exact Hr|]. apply both_spec. exact Hkey.
Qed.

Lemma df_heatmap_data_key (group_mean : list float -> float)
    (df : DataFrame) (q c : string) :
  (exists r, In r df /\ Demographics_Question r = Some q
             /\ Question r = Some c) ->
  exists v, In (q, c, v) (df_heatmap_data group_mean df).
Proof.
  intros [r [Hr Hk]].
  assert (H : In (q, c) (map fst (df_heatmap_data group_mean df))).
  { unfold df_heatmap_data. rewrite mean_Value_keys.
    apply (groupby_pair_keys Demographics_Question Question df). eauto. }
  apply in_map_iff in H. destruct H as [[[q' c'] v] [Hk' Hin]].
  simpl in Hk'. inversion Hk'; subst. eauto.
Qed.

(** X13: the heatmap matrix is built without an error and is
    rectangular.  Its lines are the demographics questions and its
    columns the questions of the rows in which both are present; the
    cell of a line and a column holds the group mean pandas takes of
    the [Value]s of exactly the rows with that demographics question
    and that question, and NaN when the frame has no such row. *)
Theorem heatmap_data_cells (group_mean : list float -> float)
    (df : DataFrame) :
  exists m,
    heatmap_data group_mean df = Pandas.Ok m
    /\ (forall q, In q (map fst (Pandas.matrix_rows m)) <->
          exists r c, In r df /\ Demographics_Question r = Some q
                      /\ Question r = Some c)
    /\ (forall c, In c (Pandas.matrix_columns m) <->
          exists r q, In r df /\ Demographics_Question r = Some q
                      /\ Question r = Some c)
    /\ (forall q cells j c,
          In (q, cells) (Pandas.matrix_rows m) ->
          nth_error (Pandas.matrix_columns m) j = Some c ->
          List.length cells = List.length (Pandas.matrix_columns m)
          /\ exists v,
               nth_error cells j = Some v
               /\ (((exists r, In r df /\ Demographics_Question r = Some q
                               /\ Question r = Some c)
                    /\ v = group_mean
                             (map Value
                                (filter
                                   (fun r =>
                                      Pandas.key_is Pandas.pair_eqb (q, c)
                                        (Pandas.both
                                           (Demographics_Question r)
                                           (Question r))) df)))
                   \/ ((forall r, In r df ->
                          ~ (Demographics_Question r = Some q
                             /\ Question r = Some c))
                       /\ v = nan))).
Proof.
  unfold heatmap_data, Pandas.pivot.
  set (tbl := df_heatmap_data group_mean df).
  assert (Hnd : NoDup (map fst tbl)).
  { unfold tbl, df_heatmap_data. rewrite mean_Value_keys.
    apply (groupby_pair_keys Demographics_Question Question df). }
  rewrite (has_duplicates_NoDup Hnd). eexists. split; [reflexivity|].
  simpl.
  destruct (sort_unique_strings (map (fun e => fst (fst e)) tbl))
    as [_ Hrows].
  destruct (sort_unique_strings (map (fun e => snd (fst e)) tbl))
    as [_ Hcols].
  split; [|split].
  - intros q. rewrite map_map. simpl. rewrite map_id, Hrows, in_map_iff.
    split.
    + intros [[[q' c] v] [Hq Hin]]. simpl in Hq. subst q'.
      destruct (df_heatmap_data_In group_mean df q c v Hin) as [[r [Hr [H1 H2]]] _].
      eauto.
    + intros [r [c [Hr [H1 H2]]]].
      destruct (@df_heatmap_data_key group_mean df q c) as [v Hv]; [eauto|].
      exists (q, c, v). auto.
  - intros c. rewrite Hcols, in_map_iff. split.
    + intros [[[q c'] v] [Hc Hin]]. simpl in Hc. subst c'.
      destruct (df_heatmap_data_In group_mean df q c v Hin) as [[r [Hr [H1 H2]]] _].
      eauto.
    + intros [r [q [Hr [H1 H2]]]].
      destruct (@df_heatmap_data_key group_mean df q c) as [v Hv]; [eauto|].
      exists (q, c, v). auto.
  - intros q cells j c Hin Hj. apply in_map_iff in Hin.
    destruct Hin as [q' [Hq _]]. inversion Hq; subst q' cells.
    split; [apply length_map|].
    rewrite nth_error_map, Hj. simpl. eexists. split; [reflexivity|].
    unfold Pandas.cell_at.
    destruct (find (fun e => Pandas.pair_eqb (q, c) (fst e)) tbl)
      as [[[q' c'] v] |] eqn:E.
    + apply find_some in E. destruct E as [Hin He]. simpl in He.
      apply pair_eqb_eq in He. inversion He; subst q' c'. left.
      apply (df_heatmap_data_In group_mean df q c v Hin).
    + right. split; [|reflexivity]. intros r Hr Hk.
      destruct (@df_heatmap_data_key group_mean df q c) as [v Hv]; [eauto|].
      pose proof (find_none _ _ E _ Hv) as Hf. simpl in Hf.
      assert (Ht : Pandas.pair_eqb (q, c) (q, c) = true)
        by now apply pair_eqb_eq.
      congruence.
Qed.

(** ** Rows kept by cleaning *)

(** X14: when the median of the raw values is a number, cleaning drops
    no row for its [Value]: the cleaned frame holds, in order, exactly
    the raw rows whose date parses, so it has as many rows as the raw
    frame has dates that parse. *)
Theorem clean_data_keeps_parsed_rows
    (parse_date : list DateCell -> string -> option Timestamp)
    (raw : DataFrame) :
  Pandas.isna (Pandas.median (map Value raw)) = false ->
  clean_data parse_date raw
  = map (assigned parse_date raw)
      (filter (fun r =>
                 negb (isna_date
                         (to_datetime_coerce parse_date
                            (map Survey_Year raw) (Survey_Year r)))) raw)
  /\ List.length (clean_data parse_date raw)
     = List.length
         (filter (fun r =>
                    negb (isna_date
                            (to_datetime_coerce parse_date
                               (map Survey_Year raw) (Survey_Year r)))) raw).
Proof.
  intros Hm.
  assert (H : clean_data parse_date raw
              = map (assigned parse_date raw)
                  (filter (fun r =>
                     negb (isna_date
                             (to_datetime_coerce parse_date
                                (map Survey_Year raw) (Survey_Year r))))
                     raw)).
  { rewrite clean_data_assigned. f_equal. apply filter_ext. intros r.
    unfold survives, assigned, Pandas.notna, Pandas.fillna. simpl.
    destruct (Pandas.isna (Value r)) eqn:E; [rewrite Hm | rewrite E];
      reflexivity. }
  split; [exact H|]. rewrite H. apply length_map.
Qed.

(** ** The further properties on concrete frames *)

Example countries_example :
  countries (clean_data parse_mdy three_rows)
  = ["Afghanistan"%string; "Albania"%string].
Proof. reflexivity. Qed.

Example default_widgets_example :
  default_widgets (clean_data parse_mdy three_rows)
  = Pandas.Ok (mkFilterParams (2015, 2017)%Z
                 ["Afghanistan"%string; "Albania"%string]
                 ["F"%string; "M"%string]
                 ["Age"%string; "Education"%string]).
Proof. reflexivity. Qed.

Example heatmap_data_example :
  heatmap_data compensated_mean (clean_data parse_mdy three_rows)
  = Pandas.Ok
      (Pandas.mkMatrix
         ["... if she argues with him"%string;
          "... if she burns the food"%string]
         [("Age"%string, [nan; 15%float]);
          ("Education"%string, [30%float; nan])]).
Proof. reflexivity. Qed.

Example default_widgets_one_year_example :
  default_widgets [row_A_M_2010]
  = Pandas.Raise Pandas.StreamlitAPIException.
Proof. reflexivity. Qed.

Example reruns_one_year_example :
  reruns [row_A_M_2010] None [(true, select_A_M); (false, select_A_M)]
  = None.
Proof. reflexivity. Qed.

Example reruns_example :
  reruns two_cleaned_rows None [(true, select_A_M); (false, select_A_M)]
  = Some [row_A_M_2010].
Proof. reflexivity. Qed.

Example charts_example :
  exists c, charts compensated_mean count_words two_cleaned_rows
            = Pandas.Ok c
            /\ chart_yearly_avg c = [(2010%Z, 10%float); (2015%Z, 30%float)].
Proof. eexists. split; reflexivity. Qed.

Lemma two_cleaned_rows_cleaned : cleaned two_cleaned_rows.
Proof.
  intros r Hr. simpl in Hr.
  destruct Hr as [<- | [<- | []]]; (split; [reflexivity|]);
    eexists; reflexivity.
Qed.

Lemma sidebar_raises_without_rows_witness :
  year_min (clean_data parse_mdy all_missing_rows)
  = Pandas.Raise (Pandas.ValueError "cannot convert float NaN to integer")
  /\ default_widgets (clean_data parse_mdy all_missing_rows)
     = Pandas.Raise (Pandas.ValueError "cannot convert float NaN to integer").
Proof.
  apply (@sidebar_raises_without_rows parse_mdy all_missing_rows).
  left. intros r Hr. simpl in Hr.
  destruct Hr as [<- | [<- | []]]; reflexivity.
Defined.

Lemma default_filter_witness :
  default_widgets two_cleaned_rows
  = Pandas.Ok (mkFilterParams (2010, 2015)%Z ["A"%string; "B"%string]
                 ["F"%string; "M"%string] ["Age"%string])
  /\ filtered two_cleaned_rows
       (mkFilterParams (2010, 2015)%Z ["A"%string; "B"%string]
          ["F"%string; "M"%string] ["Age"%string])
     = two_cleaned_rows.
Proof.
  split; [reflexivity|].
  apply (proj2 (@default_filter two_cleaned_rows _
                  two_cleaned_rows_cleaned eq_refl)).
  - simpl. lia.
  - intros r Hr. simpl in Hr.
    destruct Hr as [<- | [<- | []]]; repeat split.
Defined.

Lemma filtered_monotone_witness :
  subseq (filtered two_cleaned_rows select_A_M)
         (filtered two_cleaned_rows
            (mkFilterParams (1990, 2030)%Z ["A"%string; "B"%string]
               ["F"%string; "M"%string] ["Age"%string])).
Proof.
  apply filtered_monotone. unfold widens, incl. simpl.
  repeat split; try lia; intros a [<- | []]; auto.
Defined.

Lemma filtered_rows_complete_witness :
  present (Country row_A_M_2010) = true
  /\ present (Gender row_A_M_2010) = true
  /\ present (Demographics_Question row_A_M_2010) = true
  /\ (exists t, Survey_Year row_A_M_2010 = Stamp t)
  /\ Pandas.isna (Value row_A_M_2010) = false.
Proof.
  apply (@filtered_rows_complete None two_cleaned_rows select_A_M
           row_A_M_2010 two_cleaned_rows_cleaned).
  left. reflexivity.
Defined.

Lemma df_yearly_avg_within_range_witness :
  In (2010%Z, 10%float)
     (df_yearly_avg compensated_mean
        (df_filtered None true two_cleaned_rows select_A_M))
  /\ (2000 <= 2010 <= 2020)%Z.
Proof.
  assert (H : In (2010%Z, 10%float)
                (df_yearly_avg compensated_mean
                   (df_filtered None true two_cleaned_rows select_A_M)))
    by (left; reflexivity).
  split; [exact H|].
  exact (@df_yearly_avg_within_range compensated_mean None two_cleaned_rows
           select_A_M
           2010%Z 10%float H).
Defined.

Lemma clean_data_keeps_parsed_rows_witness :
  List.length (clean_data parse_mdy invalid_date_rows) = 1.
Proof.
  pose proof (proj2 (@clean_data_keeps_parsed_rows parse_mdy
                       invalid_date_rows eq_refl)) as H.
  rewrite H. reflexivity.
Defined.
